(** * TaskFlow: the task list's optimistic overlay and the comment thread

    A shallow embedding of the two client components
    [src/components/task-list.tsx] and [src/components/task-comments.tsx]:
    the reducer handed to [useOptimistic], the event handlers, the helper
    functions ([getInitials], [canDeleteComment]) and what the components
    render, followed by the properties the specification states about them.

    The JavaScript run time is modelled as far as the two files use it:
    strings are sequences of UTF-16 code units, [&&] and [!] go through
    truthiness, and the hooks [useState], [useTransition] and
    [useOptimistic] become explicit component state. *)

From Stdlib Require Import ZArith NArith List Bool String Ascii Lia Permutation.
Import ListNotations.

Set Implicit Arguments.

(* ================================================================= *)
(** ** The fragment of JavaScript the components rely on *)

Module JS.

(** A string is the sequence of its UTF-16 code units. *)
Definition jsstring := list N.

(** String literals of the source, all of them ASCII. *)
Definition lit (s : string) : jsstring :=
  map N_of_ascii (list_ascii_of_string s).

(** [a === b] on strings. *)
Fixpoint string_eq (a b : jsstring) : bool :=
  match a, b with
  | [], [] => true
  | x :: a', y :: b' => N.eqb x y && string_eq a' b'
  | _, _ => false
  end.

(** Truthiness of a string: only the empty string is falsy. *)
Definition string_truthy (s : jsstring) : bool :=
  match s with [] => false | _ :: _ => true end.

(** The code units [String.prototype.trim] strips: ECMAScript's
    WhiteSpace and LineTerminator productions. *)
Definition is_whitespace (c : N) : bool :=
  ((9 <=? c) && (c <=? 13) || (c =? 32) || (c =? 160) || (c =? 5760)
   || (8192 <=? c) && (c <=? 8202) || (c =? 8232) || (c =? 8233)
   || (c =? 8239) || (c =? 8287) || (c =? 12288) || (c =? 65279))%N.

Fixpoint trimStart (s : jsstring) : jsstring :=
  match s with
  | [] => []
  | c :: rest => if is_whitespace c then trimStart rest else s
  end.

Definition trimEnd (s : jsstring) : jsstring := rev (trimStart (rev s)).

Definition trim (s : jsstring) : jsstring := trimEnd (trimStart s).

(** [s.split(sep)] for a separator of one code unit: the pieces between
    the occurrences of [sep], empty pieces included; the empty string
    splits into one empty piece. *)
Fixpoint split (sep : N) (s : jsstring) : list jsstring :=
  match s with
  | [] => [[]]
  | c :: rest =>
      if N.eqb c sep then [] :: split sep rest
      else match split sep rest with
           | tok :: toks => (c :: tok) :: toks
           | [] => [[c]]
           end
  end.

(** [n[0]]: the first code unit as a string, [undefined] ([None]) on the
    empty string. *)
Definition index0 (n : jsstring) : option jsstring :=
  match n with
  | [] => None
  | c :: _ => Some [c]
  end.

(** [arr.join("")]: [undefined] elements contribute the empty string. *)
Fixpoint join (arr : list (option jsstring)) : jsstring :=
  match arr with
  | [] => []
  | None :: rest => join rest
  | Some s :: rest => s ++ join rest
  end.

Definition is_ascii (c : N) : bool := (c <? 128)%N.

Definition ascii_upper (c : N) : N :=
  if ((97 <=? c) && (c <=? 122))%N then (c - 32)%N else c.

(** [s.toUpperCase()]. On ASCII strings it maps a-z to A-Z code unit by
    code unit. Outside ASCII the Unicode case mapping can change the
    length of the string and is left to the run time: [unicodeUpper]. *)
Definition toUpperCase (unicodeUpper : jsstring -> jsstring)
           (s : jsstring) : jsstring :=
  if forallb is_ascii s then map ascii_upper s else unicodeUpper s.

(** The values the expressions of the two components evaluate to. *)
Inductive value : Type :=
| Undefined
| Number (n : Z)
| Boolean (b : bool).

Definition truthy (v : value) : bool :=
  match v with
  | Undefined => false
  | Number n => negb (n =? 0)%Z
  | Boolean b => b
  end.

(** An optional numeric prop ([currentUserId?: number]) read as a value. *)
Definition of_optional (o : option Z) : value :=
  match o with
  | None => Undefined
  | Some n => Number n
  end.

(** What React puts in the tree for [{cond && <Element/>}]: nothing for
    [undefined] and [false], the text 0 for the number zero, and the
    element when [cond] is truthy. *)
Inductive slot (A : Type) : Type :=
| Nothing
| Text (s : jsstring)
| Element (a : A).
Arguments Nothing {A}.
Arguments Text {A} s.

Definition and_element {A : Type} (cond : value) (el : A) : slot A :=
  match cond with
  | Undefined => Nothing
  | Boolean false => Nothing
  | Boolean true => Element el
  | Number n => if (n =? 0)%Z then Text (lit "0") else Element el
  end.

(** How an awaited promise ends. *)
Inductive settled (A : Type) : Type :=
| Fulfilled (a : A)
| Rejected (reason : jsstring).
Arguments Rejected {A} reason.

End JS.

(* ================================================================= *)
(** ** Data model *)

(** Time stamps ([Date]) are milliseconds since the epoch. *)
Definition Date := Z.

Module User.
Record t : Type := mk
  { id : Z;
    name : JS.jsstring;
    email : JS.jsstring }.
End User.

Module Comment.
(** [CommentWithAuthor]. *)
Record t : Type := mk
  { id : Z;
    content : JS.jsstring;
    createdAt : Date;
    taskId : Z;
    authorId : Z;
    author : User.t }.
End Comment.

Module Task.
(** [TaskWithProfile]: [assignee] is optional or null and carries the
    name only, [comments] is optional. *)
Record t : Type := mk
  { id : Z;
    name : JS.jsstring;
    description : JS.jsstring;
    status : JS.jsstring;
    priority : JS.jsstring;
    dueDate : option Date;
    assignee : option JS.jsstring;
    creatorId : Z;
    comments : option (list Comment.t) }.

(** [{ ...t, status: s }] *)
Definition with_status (t : t) (s : JS.jsstring) : Task.t :=
  mk (id t) (name t) (description t) s (priority t) (dueDate t)
     (assignee t) (creatorId t) (comments t).
End Task.

(** The server actions the components call; the calls are recorded, what
    the server does with them is outside the components. *)
Inductive Call : Type :=
| deleteTask (taskId : Z)
| updateTaskStatus (taskId : Z) (status : JS.jsstring)
| addComment (taskId : Z) (content : JS.jsstring)
| deleteComment (commentId : Z).

(* ================================================================= *)
(** ** [TaskComments]  (src/components/task-comments.tsx) *)

Module TaskComments.
Import JS.

Record Props : Type := mkProps
  { taskId : Z;
    comments : list Comment.t;
    currentUserId : option Z;
    taskCreatorId : option Z }.

(** [useState("")] and the pending flag of [useTransition]. *)
Record State : Type := mkState
  { newComment : jsstring;
    isPending : bool }.

Definition initial : State := mkState (lit "") false.

(** Modelled from the spec: the result of the [addComment] server action,
    whose module is not among the sources; the component reads its
    [success] flag only. *)
Record AddCommentResult : Type := mkResult { success : bool }.

(** [a && b] where [b] is a boolean expression: the left operand itself
    when it is falsy. *)
Definition and_then (a : value) (b : bool) : value :=
  if truthy a then Boolean b else a.

(** [x === currentUserId] for possibly undefined numbers. *)
Definition strict_eq (x y : option Z) : bool :=
  match x, y with
  | Some a, Some b => (a =? b)%Z
  | None, None => true
  | _, _ => false
  end.

Section Component.
(** The run time's case mapping outside ASCII and the date formatter of
    [@/lib/date-utils], which is not among the sources. *)
Variable unicodeUpper : jsstring -> jsstring.
Variable formatDateForDisplay : Date -> jsstring.

Variable props : Props.

(** The synchronous part of [handleAddComment]: the guard, and the
    call the transition starts with. *)
Definition handleAddComment (st : State) : State * list Call :=
  if negb (string_truthy (trim (newComment st))) then (st, [])
  else (mkState (newComment st) true,
        [addComment (taskId props) (newComment st)]).

(** The rest of the transition, once [addComment] has answered. *)
Definition handleAddComment_resume (result : AddCommentResult)
           (st : State) : State :=
  mkState (if success result then lit "" else newComment st) false.

Definition handleDeleteComment (commentId : Z) (st : State)
  : State * list Call :=
  (mkState (newComment st) true, [deleteComment commentId]).

Definition handleDeleteComment_resume (st : State) : State :=
  mkState (newComment st) false.

Definition getInitials (name : option jsstring) : jsstring :=
  match name with
  | None => lit "??"
  | Some n =>
      if negb (string_truthy n) then lit "??"
      else toUpperCase unicodeUpper (join (map index0 (split 32 n)))
  end.

Definition canDeleteComment (comment : Comment.t) : value :=
  and_then (of_optional (currentUserId props))
           (strict_eq (Some (Comment.authorId comment)) (currentUserId props)
            || strict_eq (taskCreatorId props) (currentUserId props)).

(** *** What the component renders *)

Record DeleteButton : Type := mkDeleteButton
  { delete_disabled : bool;
    delete_onClick : Z }.

Record CommentCard : Type := mkCard
  { card_key : Z;
    card_initials : jsstring;
    card_author : jsstring;
    card_date : jsstring;
    card_content : jsstring;
    card_delete : slot DeleteButton }.

Inductive CommentsList : Type :=
| NoCommentsYet
| Cards (cards : list CommentCard).

Record AddForm : Type := mkAddForm
  { textarea_value : jsstring;
    textarea_disabled : bool;
    submit_disabled : bool;
    submit_label : jsstring }.

Record View : Type := mkView
  { heading_count : nat;
    commentsList : CommentsList;
    addForm : slot AddForm }.

Definition render_card (st : State) (comment : Comment.t) : CommentCard :=
  mkCard (Comment.id comment)
         (getInitials (Some (User.name (Comment.author comment))))
         (User.name (Comment.author comment))
         (formatDateForDisplay (Comment.createdAt comment))
         (Comment.content comment)
         (and_element (canDeleteComment comment)
                      (mkDeleteButton (isPending st) (Comment.id comment))).

Definition render (st : State) : View :=
  mkView (List.length (comments props))
         (match comments props with
          | [] => NoCommentsYet
          | _ :: _ => Cards (map (render_card st) (comments props))
          end)
         (and_element (of_optional (currentUserId props))
            (mkAddForm (newComment st)
                       (isPending st)
                       (negb (string_truthy (trim (newComment st)))
                        || isPending st)
                       (if isPending st then lit "Adding..."
                        else lit "Add Comment"))).

(** *** The component as a machine *)

Inductive Event : Type :=
| Change (value : jsstring)
| ClickAdd
| AddCommentSettled (result : AddCommentResult)
| ClickDelete (commentId : Z)
| DeleteCommentSettled.

Definition step (st : State) (e : Event) : State * list Call :=
  match e with
  | Change v => (mkState v (isPending st), [])
  | ClickAdd => handleAddComment st
  | AddCommentSettled r => (handleAddComment_resume r st, [])
  | ClickDelete c => handleDeleteComment c st
  | DeleteCommentSettled => (handleDeleteComment_resume st, [])
  end.

Fixpoint run (st : State) (es : list Event) : State * list Call :=
  match es with
  | [] => (st, [])
  | e :: es' =>
      let (st1, calls1) := step st e in
      let (st2, calls2) := run st1 es' in
      (st2, calls1 ++ calls2)
  end.

(** The comments on screen, by id, in order. *)
Definition shown (v : View) : list Z :=
  match commentsList v with
  | NoCommentsYet => []
  | Cards cards => map card_key cards
  end.

End Component.
End TaskComments.

(* ================================================================= *)
(** ** [TaskList]  (src/components/task-list.tsx) *)

Module TaskList.
Import JS.

(** The argument of [setOptimisticTasks]. The reducer reads nothing of
    its [task] but the id, which is all [handleDelete] passes. *)
Inductive ActionKind : Type := delete | toggle.

Record OptimisticAction : Type := mkAction
  { action : ActionKind;
    task_id : Z }.

(** The reducer given to [useOptimistic]. Its last line, [return state],
    is for an action that is neither of the two, which the type rules
    out. *)
Definition reducer (state : list Task.t) (a : OptimisticAction)
  : list Task.t :=
  match action a with
  | delete =>
      filter (fun t => negb (Task.id t =? task_id a)%Z) state
  | toggle =>
      map (fun t =>
             if (Task.id t =? task_id a)%Z
             then Task.with_status t
                    (if string_eq (Task.status t) (lit "done")
                     then lit "todo" else lit "done")
             else t)
          state
  end.

(** The state of one mounted component. [useOptimistic] keeps the
    updates dispatched by transitions that have not finished yet; the
    value it returns is the prop with those updates applied in order, and
    the prop itself when no transition is pending. The open flags of the
    dialogs and menus play no part below and are left out. *)
Record State : Type := mkState
  { initialTasks : list Task.t;
    pendingUpdates : list OptimisticAction;
    isPending : bool;
    currentUser : option User.t;
    console : list (jsstring * jsstring) }.

Definition mount (tasks : list Task.t) : State :=
  mkState tasks [] false None [].

Definition optimisticTasks (st : State) : list Task.t :=
  fold_left reducer (pendingUpdates st) (initialTasks st).

(** [startTransition]: the pending flag goes up for as long as the
    function it is given runs. *)
Definition startTransition (st : State) : State :=
  mkState (initialTasks st) (pendingUpdates st) true
          (currentUser st) (console st).

Definition setOptimisticTasks (a : OptimisticAction) (st : State) : State :=
  mkState (initialTasks st) (pendingUpdates st ++ [a]) (isPending st)
          (currentUser st) (console st).

(** The effect run on mount, at the point where [getCurrentUser] has
    settled. *)
Definition loadCurrentUser (outcome : settled (option User.t)) (st : State)
  : State :=
  match outcome with
  | Fulfilled user =>
      mkState (initialTasks st) (pendingUpdates st) (isPending st)
              user (console st)
  | Rejected error =>
      mkState (initialTasks st) (pendingUpdates st) (isPending st)
              (currentUser st)
              (console st ++ [(lit "Failed to load current user:", error)])
  end.

(** The two handlers up to their [await]: the optimistic update and the
    call that goes out. Neither reads what the call returns. *)
Definition handleDelete (taskId : Z) (st : State) : State * list Call :=
  (setOptimisticTasks (mkAction delete taskId) (startTransition st),
   [deleteTask taskId]).

Definition handleToggle (task : Task.t) (st : State) : State * list Call :=
  (setOptimisticTasks (mkAction toggle (Task.id task)) (startTransition st),
   [updateTaskStatus (Task.id task)
      (if string_eq (Task.status task) (lit "done")
       then lit "todo" else lit "done")]).

(** [x || null] for an optional string. *)
Definition or_null (x : option jsstring) : option jsstring :=
  match x with
  | Some s => if string_truthy s then Some s else None
  | None => None
  end.

Section Component.
Variable unicodeUpper : jsstring -> jsstring.

Definition getInitials (name : option jsstring) : jsstring :=
  match name with
  | None => lit "??"
  | Some n =>
      if negb (string_truthy n) then lit "??"
      else toUpperCase unicodeUpper (join (map index0 (split 32 n)))
  end.

(** The props of the [TaskComments] in a task's dialog. *)
Definition commentsProps (st : State) (task : Task.t)
  : TaskComments.Props :=
  TaskComments.mkProps
    (Task.id task)
    (match Task.comments task with Some cs => cs | None => [] end)
    (option_map User.id (currentUser st))
    (Some (Task.creatorId task)).

(** One card of the list, as far as it depends on the task. *)
Record Row : Type := mkRow
  { row_key : Z;
    row_checked : bool;
    row_name : jsstring;
    row_initials : jsstring;
    row_assignee : jsstring;
    row_comments : TaskComments.Props }.

Definition render_row (st : State) (task : Task.t) : Row :=
  mkRow (Task.id task)
        (string_eq (Task.status task) (lit "done"))
        (Task.name task)
        (getInitials (or_null (Task.assignee task)))
        (match or_null (Task.assignee task) with
         | Some n => n
         | None => lit "Unassigned"
         end)
        (commentsProps st task).

Definition render (st : State) : list Row :=
  map (render_row st) (optimisticTasks st).
End Component.

(** *** The component as a machine

    Besides the two handlers and the mount effect, a component instance
    moves when React tells it that its transitions have all finished
    (the optimistic updates are dropped and the prop shows through) and
    when its parent renders it with a new [initialTasks]. *)
Inductive Event : Type :=
| CheckedChange (task : Task.t)
| ClickDelete (taskId : Z)
| CurrentUserSettled (outcome : settled (option User.t))
| TransitionsSettled
| Rerender (tasks : list Task.t).

Definition step (st : State) (e : Event) : State * list Call :=
  match e with
  | CheckedChange task => handleToggle task st
  | ClickDelete taskId => handleDelete taskId st
  | CurrentUserSettled outcome => (loadCurrentUser outcome st, [])
  | TransitionsSettled =>
      (mkState (initialTasks st) [] false (currentUser st) (console st), [])
  | Rerender tasks =>
      (mkState tasks (pendingUpdates st) (isPending st)
               (currentUser st) (console st), [])
  end.

Fixpoint run (st : State) (es : list Event) : State * list Call :=
  match es with
  | [] => (st, [])
  | e :: es' =>
      let (st1, calls1) := step st e in
      let (st2, calls2) := run st1 es' in
      (st2, calls1 ++ calls2)
  end.

(** Events that leave the running transitions running. *)
Definition keeps_pending (e : Event) : bool :=
  match e with
  | TransitionsSettled => false
  | _ => true
  end.

(** Whether a task with this id is on screen. *)
Definition visible (taskId : Z) (st : State) : bool :=
  existsb (fun t => (Task.id t =? taskId)%Z) (optimisticTasks st).

End TaskList.

(* ================================================================= *)
(** ** The rest of a task's card and the open flags
       (src/components/task-list.tsx) *)

Module TaskListView.
Import JS.

(** [s.replace(pattern, replacement)] with a string pattern, here of one
    code unit as the replacement is: the first occurrence only. *)
Fixpoint replace (pattern replacement : N) (s : jsstring) : jsstring :=
  match s with
  | [] => []
  | c :: rest =>
      if N.eqb c pattern then replacement :: rest
      else c :: replace pattern replacement rest
  end.

(** The status badge: [task.status.replace("_", " ")]. *)
Definition statusBadge (task : Task.t) : jsstring :=
  replace 95 32 (Task.status task).

(** [{task.dueDate && ...}]: a [Date] object is always truthy. *)
Definition dueDateBadge (formatDateForDisplay : Date -> jsstring)
           (task : Task.t) : slot jsstring :=
  match Task.dueDate task with
  | Some d => Element (formatDateForDisplay d)
  | None => Nothing
  end.

(** [{task.comments && task.comments.length > 0 && ...}]: the number of
    comments; an array is truthy even when empty, and [false] renders
    nothing. *)
Definition commentCountBadge (task : Task.t) : slot nat :=
  match Task.comments task with
  | None => Nothing
  | Some cs =>
      if Nat.ltb 0 (List.length cs) then Element (List.length cs) else Nothing
  end.

(** [Record<number, boolean>]: a key that was never set reads
    [undefined]. *)
Definition Flags : Type := Z -> option bool.

Definition noFlags : Flags := fun _ => None.

(** [{ ...prev, [key]: value }] *)
Definition setFlag (key : Z) (value : bool) (prev : Flags) : Flags :=
  fun k => if (k =? key)%Z then Some value else prev k.

(** [openDialogs] and [openDropdowns]. *)
Record Open : Type := mkOpen
  { openDialogs : Flags;
    openDropdowns : Flags }.

Definition closed : Open := mkOpen noFlags noFlags.

Definition handleCloseDialog (taskId : Z) (o : Open) : Open :=
  mkOpen (setFlag taskId false (openDialogs o)) (openDropdowns o).

Definition handleEditClick (taskId : Z) (o : Open) : Open :=
  mkOpen (setFlag taskId true (openDialogs o))
         (setFlag taskId false (openDropdowns o)).

(** What moves the flags: the menu's Edit item, the edit form's
    [onFinish], and the [onOpenChange] of a task's dialog and menu. *)
Inductive Event : Type :=
| EditSelected (taskId : Z)
| EditFinished (taskId : Z)
| DialogOpenChange (taskId : Z) (open : bool)
| DropdownOpenChange (taskId : Z) (open : bool).

Definition subject (e : Event) : Z :=
  match e with
  | EditSelected i => i
  | EditFinished i => i
  | DialogOpenChange i _ => i
  | DropdownOpenChange i _ => i
  end.

Definition step (o : Open) (e : Event) : Open :=
  match e with
  | EditSelected i => handleEditClick i o
  | EditFinished i => handleCloseDialog i o
  | DialogOpenChange i open =>
      mkOpen (setFlag i open (openDialogs o)) (openDropdowns o)
  | DropdownOpenChange i open =>
      mkOpen (openDialogs o) (setFlag i open (openDropdowns o))
  end.

Definition run (o : Open) (es : list Event) : Open := fold_left step es o.

End TaskListView.

(* ================================================================= *)
(** ** The specification's wording of the initials *)

Module Spec.
Import JS.

(** The tokens of a name split on the separators [sep]: its maximal
    runs of code units that are not separators. *)
Fixpoint tokens (sep : N -> bool) (s : jsstring) : list jsstring :=
  match s with
  | [] => []
  | c :: rest =>
      if sep c then tokens sep rest
      else match rest with
           | [] => [[c]]
           | d :: _ =>
               if sep d then [c] :: tokens sep rest
               else match tokens sep rest with
                    | tok :: toks => (c :: tok) :: toks
                    | [] => [[c]]
                    end
           end
  end.

(** Split, take the first character of each token, concatenate,
    uppercase; the placeholder when there is no name. The specification
    splits on whitespace: [initials is_whitespace]. *)
Definition initials (sep : N -> bool) (unicodeUpper : jsstring -> jsstring)
           (name : option jsstring) : jsstring :=
  match name with
  | None => lit "??"
  | Some n =>
      toUpperCase unicodeUpper (List.concat (map (firstn 1) (tokens sep n)))
  end.

Definition is_space (c : N) : bool := (c =? 32)%N.

(** A name whose only whitespace is the space character. *)
Definition spaces_only (s : jsstring) : bool :=
  forallb (fun c => negb (is_whitespace c) || is_space c) s.

(** The code units that begin a token; [inside] tells whether the code
    unit before the string belongs to a token. *)
Fixpoint starts (sep : N -> bool) (inside : bool) (s : jsstring) : jsstring :=
  match s with
  | [] => []
  | c :: rest =>
      if sep c then starts sep false rest
      else if inside then starts sep true rest
           else c :: starts sep true rest
  end.

End Spec.

(* ================================================================= *)
(** ** Sample data *)

Module Sample.
Import JS.
Local Open Scope Z_scope.

Definition jane : User.t := User.mk 2 (lit "Jane Smith") (lit "jane@example.com").

Definition hello : Comment.t := Comment.mk 10 (lit "Looks good") 1700000000000 1 2 jane.

Definition task (id : Z) (status : string) : Task.t :=
  Task.mk id (lit "Write report") (lit "Quarterly numbers") (lit status)
          (lit "medium") None (Some (lit "Jane Smith")) 3 (Some [hello]).

(** Case mapping outside ASCII is not exercised by the samples. *)
Definition noUnicode (s : jsstring) : jsstring := s.

Definition isoDate (d : Date) : jsstring := lit "2023-11-14".
End Sample.

(* ================================================================= *)
(** * Properties *)

Import JS.
Local Open Scope Z_scope.
Unset Implicit Arguments.

(** ** Strings *)

Lemma string_eq_true_iff (a b : jsstring) : string_eq a b = true <-> a = b.
Proof.
  revert b; induction a as [|x a IH]; intros [|y b]; simpl;
    try (split; congruence).
  rewrite andb_true_iff, N.eqb_eq, IH. split.
  - intros [-> ->]; reflexivity.
  - intros E; inversion E; auto.
Qed.

Lemma string_eq_false_iff (a b : jsstring) : string_eq a b = false <-> a <> b.
Proof.
  rewrite <- string_eq_true_iff. destruct (string_eq a b); split; congruence.
Qed.

Lemma trimStart_head (s : jsstring) (c : N) (r : jsstring) :
  trimStart s = c :: r -> is_whitespace c = false.
Proof.
  induction s as [|x s IH]; simpl; [discriminate|].
  destruct (is_whitespace x) eqn:E; [exact IH|].
  intros H; inversion H; subst; exact E.
Qed.

Lemma trimStart_nil_iff (s : jsstring) :
  trimStart s = [] <-> forallb is_whitespace s = true.
Proof.
  induction s as [|x s IH]; simpl; [tauto|].
  destruct (is_whitespace x); simpl; [exact IH|split; discriminate].
Qed.

Lemma trim_nil_iff (s : jsstring) :
  trim s = [] <-> forallb is_whitespace s = true.
Proof.
  unfold trim, trimEnd. split.
  - intros H. apply trimStart_nil_iff.
    destruct (trimStart s) as [|c r] eqn:E; [reflexivity|exfalso].
    apply trimStart_head in E.
    apply (f_equal (@rev N)) in H. rewrite rev_involutive in H. simpl in H.
    apply trimStart_nil_iff in H.
    rewrite forallb_app in H. simpl in H.
    rewrite E in H. rewrite andb_false_r in H. discriminate.
  - intros H. apply trimStart_nil_iff in H. rewrite H. reflexivity.
Qed.

Lemma blank_iff (s : jsstring) :
  negb (string_truthy (trim s)) = forallb is_whitespace s.
Proof.
  destruct (forallb is_whitespace s) eqn:E.
  - apply trim_nil_iff in E. rewrite E. reflexivity.
  - destruct (trim s) eqn:T; [|reflexivity].
    apply trim_nil_iff in T. congruence.
Qed.

(** ** The comment thread *)

(** C3. Submitting a comment that is empty or all whitespace calls nothing
    and leaves the component's state as it was. Any other text is sent to
    [addComment] as typed, untrimmed, and the input is emptied exactly when
    the answer's [success] flag is true; otherwise the text stays. *)
Theorem handleAddComment_blank_or_submit
        (props : TaskComments.Props) (st : TaskComments.State) :
  (forallb is_whitespace (TaskComments.newComment st) = true ->
     TaskComments.handleAddComment props st = (st, []))
  /\
  (forallb is_whitespace (TaskComments.newComment st) = false ->
     snd (TaskComments.handleAddComment props st)
     = [addComment (TaskComments.taskId props) (TaskComments.newComment st)]
     /\ TaskComments.newComment (fst (TaskComments.handleAddComment props st))
        = TaskComments.newComment st
     /\ forall result : TaskComments.AddCommentResult,
         let st' := TaskComments.handleAddComment_resume result
                      (fst (TaskComments.handleAddComment props st)) in
         (TaskComments.success result = true ->
            TaskComments.newComment st' = lit "")
         /\ (TaskComments.success result = false ->
               TaskComments.newComment st' = TaskComments.newComment st)
         /\ (TaskComments.newComment st' = lit "" <->
               TaskComments.success result = true)).
Proof.
  unfold TaskComments.handleAddComment. rewrite blank_iff.
  split; intros E; rewrite E; [reflexivity|].
  simpl. repeat split; try (destruct (TaskComments.success result); congruence).
  - destruct (TaskComments.success result); [reflexivity|].
    intros H. simpl in H. rewrite H in E. discriminate.
Qed.

Lemma handleAddComment_blank_or_submit_witness :
  TaskComments.handleAddComment
    (TaskComments.mkProps 5 [] (Some 2%Z) (Some 3%Z))
    (TaskComments.mkState (lit "  ") false)
  = (TaskComments.mkState (lit "  ") false, [])
  /\ snd (TaskComments.handleAddComment
            (TaskComments.mkProps 5 [] (Some 2%Z) (Some 3%Z))
            (TaskComments.mkState (lit " ok ") false))
     = [addComment 5 (lit " ok ")].
Proof.
  split.
  - apply (proj1 (handleAddComment_blank_or_submit
                    (TaskComments.mkProps 5 [] (Some 2%Z) (Some 3%Z))
                    (TaskComments.mkState (lit "  ") false))).
    reflexivity.
  - apply (proj2 (handleAddComment_blank_or_submit
                    (TaskComments.mkProps 5 [] (Some 2%Z) (Some 3%Z))
                    (TaskComments.mkState (lit " ok ") false))).
    reflexivity.
Defined.

(** Who may delete: a current user whose id is truthy, and who wrote the
    comment or created the task. *)
Lemma canDeleteComment_cases (props : TaskComments.Props) (comment : Comment.t) :
  TaskComments.canDeleteComment props comment =
  match TaskComments.currentUserId props with
  | None => Undefined
  | Some u =>
      if (u =? 0)%Z then Number 0
      else Boolean ((Comment.authorId comment =? u)%Z
                    || match TaskComments.taskCreatorId props with
                       | Some c => (c =? u)%Z
                       | None => false
                       end)
  end.
Proof.
  unfold TaskComments.canDeleteComment, TaskComments.and_then.
  destruct (TaskComments.currentUserId props) as [u|]; simpl; [|reflexivity].
  destruct (Z.eqb_spec u 0) as [->|]; simpl; [reflexivity|].
  destruct (TaskComments.taskCreatorId props); reflexivity.
Qed.

(** C2, as amended. [canDeleteComment] returns [true] if and only if
    [currentUserId] is defined, is not zero, and equals the comment's
    [authorId] or [taskCreatorId]; in every other case the value is falsy
    ([undefined] when there is no current user). *)
Theorem canDeleteComment_true_iff
        (props : TaskComments.Props) (comment : Comment.t) :
  let allowed :=
    exists u : Z,
      TaskComments.currentUserId props = Some u /\ u <> 0%Z /\
      (Comment.authorId comment = u \/ TaskComments.taskCreatorId props = Some u) in
  (TaskComments.canDeleteComment props comment = Boolean true <-> allowed)
  /\ (truthy (TaskComments.canDeleteComment props comment) = true <-> allowed)
  /\ (TaskComments.currentUserId props = None ->
        TaskComments.canDeleteComment props comment = Undefined).
Proof.
  cbv zeta. rewrite canDeleteComment_cases.
  destruct (TaskComments.currentUserId props) as [u|].
  2:{ repeat split; try discriminate; try reflexivity;
      intros (u & H & _); discriminate. }
  destruct (Z.eqb_spec u 0) as [->|Hu].
  { repeat split; try discriminate;
      intros (u & H & Hu & _); inversion H; congruence. }
  assert (E : (Comment.authorId comment =? u)%Z
              || match TaskComments.taskCreatorId props with
                 | Some c => (c =? u)%Z
                 | None => false
                 end = true
              <-> exists v : Z, Some u = Some v /\ v <> 0%Z /\
                    (Comment.authorId comment = v
                     \/ TaskComments.taskCreatorId props = Some v)).
  { rewrite orb_true_iff, Z.eqb_eq. split.
    - intros [H|H]; exists u; repeat split; auto.
      destruct (TaskComments.taskCreatorId props) as [c|]; [|discriminate].
      apply Z.eqb_eq in H. subst; auto.
    - intros (v & Hv & _ & [H|H]); inversion Hv; subst; auto.
      rewrite H. right. apply Z.eqb_refl. }
  repeat split; try discriminate.
  - intros H. apply E. inversion H. reflexivity.
  - intros H. apply E in H. rewrite H. reflexivity.
  - intros H. apply E. exact H.
  - intros H. apply E in H. exact H.
Qed.

Lemma canDeleteComment_true_iff_witness :
  TaskComments.canDeleteComment
    (TaskComments.mkProps 1 [Sample.hello] (Some 2%Z) (Some 3%Z)) Sample.hello
  = Boolean true
  /\ TaskComments.canDeleteComment
       (TaskComments.mkProps 1 [Sample.hello] (Some 3%Z) (Some 3%Z)) Sample.hello
     = Boolean true
  /\ TaskComments.canDeleteComment
       (TaskComments.mkProps 1 [Sample.hello] None (Some 3%Z)) Sample.hello
     = Undefined.
Proof.
  split; [|split].
  - apply (proj1 (canDeleteComment_true_iff
                    (TaskComments.mkProps 1 [Sample.hello] (Some 2%Z) (Some 3%Z))
                    Sample.hello)).
    exists 2%Z. repeat split; [discriminate | left; reflexivity].
  - apply (proj1 (canDeleteComment_true_iff
                    (TaskComments.mkProps 1 [Sample.hello] (Some 3%Z) (Some 3%Z))
                    Sample.hello)).
    exists 3%Z. repeat split; [discriminate | right; reflexivity].
  - apply (proj2 (proj2 (canDeleteComment_true_iff
                    (TaskComments.mkProps 1 [Sample.hello] None (Some 3%Z))
                    Sample.hello))).
    reflexivity.
Defined.

(** C2 as stated fails for the user id 0: the id is defined and equal to
    the comment's author id, yet the guard [currentUserId && ...] yields
    the number 0 itself, which is falsy. *)
Lemma canDeleteComment_user_zero :
  let props := TaskComments.mkProps 1 [] (Some 0%Z) (Some 3%Z) in
  let comment := Comment.mk 10 (lit "hi") 0 1 0 (User.mk 0 (lit "Root") (lit "")) in
  TaskComments.currentUserId props = Some (Comment.authorId comment)
  /\ TaskComments.canDeleteComment props comment = Number 0
  /\ truthy (TaskComments.canDeleteComment props comment) = false.
Proof. repeat split. Qed.

(** ** The optimistic overlay of the task list *)

Lemma optimisticTasks_set (a : TaskList.OptimisticAction) (st : TaskList.State) :
  TaskList.optimisticTasks (TaskList.setOptimisticTasks a st)
  = TaskList.reducer (TaskList.optimisticTasks st) a.
Proof.
  unfold TaskList.optimisticTasks, TaskList.setOptimisticTasks. simpl.
  rewrite fold_left_app. reflexivity.
Qed.

(** One card per task of the overlay, keyed by the task's id. *)
Lemma render_keys (unicodeUpper : jsstring -> jsstring) (st : TaskList.State) :
  map (TaskList.row_key) (TaskList.render unicodeUpper st)
  = map Task.id (TaskList.optimisticTasks st).
Proof. unfold TaskList.render. rewrite map_map. reflexivity. Qed.

Lemma reducer_toggle_nth (state : list Task.t) (i : Z) (k : nat) :
  nth_error (TaskList.reducer state (TaskList.mkAction TaskList.toggle i)) k
  = option_map
      (fun t => if Task.id t =? i
                then Task.with_status t
                       (if string_eq (Task.status t) (lit "done")
                        then lit "todo" else lit "done")
                else t)
      (nth_error state k).
Proof. unfold TaskList.reducer. simpl. apply nth_error_map. Qed.

Lemma with_status_same (t : Task.t) : Task.with_status t (Task.status t) = t.
Proof. destruct t; reflexivity. Qed.

Lemma with_status_twice (t : Task.t) (s1 s2 : jsstring) :
  Task.with_status (Task.with_status t s1) s2 = Task.with_status t s2.
Proof. reflexivity. Qed.

(** C1, as amended. Dispatching the toggle action twice, with nothing in
    between, brings a task whose status was [todo] or [done] back to what
    it was; a task with any other status, [in_progress] among them, ends
    with the status [todo]. *)
Theorem toggle_twice_restores_todo_and_done
        (st : TaskList.State) (k : nat) (t : Task.t)
        (H : nth_error (TaskList.optimisticTasks st) k = Some t) :
  let a := TaskList.mkAction TaskList.toggle (Task.id t) in
  let st2 := TaskList.setOptimisticTasks a (TaskList.setOptimisticTasks a st) in
  exists t' : Task.t,
    nth_error (TaskList.optimisticTasks st2) k = Some t'
    /\ (Task.status t = lit "todo" \/ Task.status t = lit "done" -> t' = t)
    /\ (Task.status t <> lit "done" -> Task.status t' = lit "todo").
Proof.
  cbv zeta. rewrite !optimisticTasks_set, !reducer_toggle_nth, H. simpl.
  rewrite Z.eqb_refl. simpl. rewrite Z.eqb_refl.
  eexists; split; [reflexivity|]. rewrite with_status_twice.
  destruct (string_eq (Task.status t) (lit "done")) eqn:E; simpl.
  - apply string_eq_true_iff in E. split.
    + intros _. rewrite <- E. apply with_status_same.
    + intros N. contradiction.
  - apply string_eq_false_iff in E. split.
    + intros [T|D]; [|contradiction]. rewrite <- T. apply with_status_same.
    + reflexivity.
Qed.

Lemma toggle_twice_restores_todo_and_done_witness :
  exists t' : Task.t,
    nth_error
      (TaskList.optimisticTasks
         (TaskList.setOptimisticTasks (TaskList.mkAction TaskList.toggle 1)
            (TaskList.setOptimisticTasks (TaskList.mkAction TaskList.toggle 1)
               (TaskList.mount [Sample.task 1 "done"; Sample.task 2 "todo"]))))
      0 = Some t'
    /\ t' = Sample.task 1 "done".
Proof.
  destruct (toggle_twice_restores_todo_and_done
              (TaskList.mount [Sample.task 1 "done"; Sample.task 2 "todo"])
              0%nat (Sample.task 1 "done") eq_refl) as (t' & Hn & Hsame & _).
  exists t'. split; [exact Hn|]. apply Hsame. right. reflexivity.
Defined.

(** C1 as stated fails for [in_progress]: the first toggle makes the task
    [done], the second makes it [todo]. *)
Lemma toggle_twice_in_progress :
  let a := TaskList.mkAction TaskList.toggle 1 in
  let st := TaskList.mount [Sample.task 1 "in_progress"] in
  map Task.status (TaskList.optimisticTasks st) = [lit "in_progress"]
  /\ map Task.status
       (TaskList.optimisticTasks
          (TaskList.setOptimisticTasks a (TaskList.setOptimisticTasks a st)))
     = [lit "todo"].
Proof. split; reflexivity. Qed.

(** C10. A toggle keeps the list's length and order, changes nothing of a
    task but its status, and nothing at all of a task with another id; a
    delete leaves the tasks with another id as they were, in their order. *)
Theorem reducer_frame
        (state : list Task.t) (i : Z) (k : nat) (t : Task.t)
        (H : nth_error state k = Some t) :
  (exists t' : Task.t,
      nth_error (TaskList.reducer state (TaskList.mkAction TaskList.toggle i)) k
      = Some t'
      /\ Task.id t' = Task.id t
      /\ Task.name t' = Task.name t
      /\ Task.description t' = Task.description t
      /\ Task.priority t' = Task.priority t
      /\ Task.dueDate t' = Task.dueDate t
      /\ Task.assignee t' = Task.assignee t
      /\ Task.creatorId t' = Task.creatorId t
      /\ Task.comments t' = Task.comments t
      /\ (Task.id t <> i -> t' = t))
  /\ List.length (TaskList.reducer state (TaskList.mkAction TaskList.toggle i))
     = List.length state
  /\ filter (fun x => negb (Task.id x =? i))
            (TaskList.reducer state (TaskList.mkAction TaskList.delete i))
     = filter (fun x => negb (Task.id x =? i)) state
  /\ (Task.id t <> i ->
      In t (TaskList.reducer state (TaskList.mkAction TaskList.delete i))).
Proof.
  split; [|split; [|split]].
  - rewrite reducer_toggle_nth, H. simpl.
    destruct (Z.eqb_spec (Task.id t) i) as [E|E].
    + eexists; split; [reflexivity|]. simpl. repeat split. contradiction.
    + exists t. repeat split.
  - unfold TaskList.reducer. simpl. apply length_map.
  - unfold TaskList.reducer. simpl.
    clear H. induction state as [|x state IH]; simpl; [reflexivity|].
    destruct (negb (Task.id x =? i)) eqn:E; simpl; [rewrite E, IH|]; auto.
  - intros N. unfold TaskList.reducer. simpl. apply filter_In. split.
    + eapply nth_error_In; eauto.
    + apply negb_true_iff, Z.eqb_neq. exact N.
Qed.

Lemma reducer_frame_witness :
  In (Sample.task 2 "todo")
     (TaskList.reducer [Sample.task 1 "done"; Sample.task 2 "todo"]
                       (TaskList.mkAction TaskList.delete 1))
  /\ List.length
       (TaskList.reducer [Sample.task 1 "done"; Sample.task 2 "todo"]
                         (TaskList.mkAction TaskList.toggle 1)) = 2%nat.
Proof.
  destruct (reducer_frame [Sample.task 1 "done"; Sample.task 2 "todo"]
                          1 1%nat (Sample.task 2 "todo") eq_refl)
    as (_ & L & _ & I).
  split; [apply I; discriminate | exact L].
Defined.

(** *** Deleting *)

Lemma reducer_keeps_absent (i : Z) (a : TaskList.OptimisticAction)
      (state : list Task.t) :
  existsb (fun t => Task.id t =? i) state = false ->
  existsb (fun t => Task.id t =? i) (TaskList.reducer state a) = false.
Proof.
  unfold TaskList.reducer. destruct (TaskList.action a).
  - induction state as [|x state IH]; simpl; [reflexivity|].
    intros H. apply orb_false_iff in H. destruct H as [Hx Hs].
    destruct (negb (Task.id x =? TaskList.task_id a)); simpl; auto.
    rewrite Hx. auto.
  - induction state as [|x state IH]; simpl; [reflexivity|].
    intros H. apply orb_false_iff in H. destruct H as [Hx Hs].
    rewrite (IH Hs), orb_false_r.
    destruct (Task.id x =? TaskList.task_id a); simpl; exact Hx.
Qed.

Lemma reducer_delete_absent (i : Z) (state : list Task.t) :
  existsb (fun t => Task.id t =? i)
          (TaskList.reducer state (TaskList.mkAction TaskList.delete i)) = false.
Proof.
  unfold TaskList.reducer. simpl.
  induction state as [|x state IH]; simpl; [reflexivity|].
  destruct (Task.id x =? i) eqn:E; simpl; [exact IH|].
  rewrite E. exact IH.
Qed.

Lemma fold_keeps_absent (i : Z) (queue : list TaskList.OptimisticAction) :
  forall state : list Task.t,
    existsb (fun t => Task.id t =? i) state = false ->
    existsb (fun t => Task.id t =? i) (fold_left TaskList.reducer queue state)
    = false.
Proof.
  induction queue as [|a queue IH]; simpl; intros state H; [exact H|].
  apply IH, reducer_keeps_absent, H.
Qed.

(** While a delete of [i] is among the pending updates, no task with the
    id [i] is on screen, whatever the prop is. *)
Lemma pending_delete_hides (i : Z) (st : TaskList.State) :
  In (TaskList.mkAction TaskList.delete i) (TaskList.pendingUpdates st) ->
  TaskList.visible i st = false.
Proof.
  unfold TaskList.visible, TaskList.optimisticTasks.
  generalize (TaskList.initialTasks st).
  induction (TaskList.pendingUpdates st) as [|a queue IH]; simpl;
    intros state H; [contradiction|].
  destruct H as [->|H]; [|apply IH, H].
  apply fold_keeps_absent, reducer_delete_absent.
Qed.

Lemma step_keeps_update (a : TaskList.OptimisticAction) (st : TaskList.State)
      (e : TaskList.Event) :
  TaskList.keeps_pending e = true ->
  In a (TaskList.pendingUpdates st) ->
  In a (TaskList.pendingUpdates (fst (TaskList.step st e))).
Proof.
  destruct e as [task|taskId|[user|error]| |tasks]; simpl; intros K H;
    try discriminate; auto; apply in_or_app; left; exact H.
Qed.

Lemma run_keeps_update (a : TaskList.OptimisticAction) (es : list TaskList.Event) :
  forall st : TaskList.State,
    forallb TaskList.keeps_pending es = true ->
    In a (TaskList.pendingUpdates st) ->
    In a (TaskList.pendingUpdates (fst (TaskList.run st es))).
Proof.
  induction es as [|e es IH]; simpl; intros st K H; [exact H|].
  apply andb_true_iff in K. destruct K as [Ke Kes].
  pose proof (step_keeps_update a st e Ke H) as H1.
  destruct (TaskList.step st e) as [st1 calls1]. simpl in H1.
  specialize (IH st1 Kes H1).
  destruct (TaskList.run st1 es) as [st2 calls2]. exact IH.
Qed.

(** C4, as amended. [handleDelete] takes the task off the screen at once
    and calls [deleteTask]; the task stays off through every later toggle,
    delete and new prop for as long as the transitions are pending. When
    they have settled the list shown is the [initialTasks] prop again. *)
Theorem deleted_task_absent_while_pending
        (st : TaskList.State) (taskId : Z) (es : list TaskList.Event)
        (H : forallb TaskList.keeps_pending es = true) :
  let st1 := fst (TaskList.handleDelete taskId st) in
  let st2 := fst (TaskList.run st1 es) in
  snd (TaskList.handleDelete taskId st) = [deleteTask taskId]
  /\ TaskList.visible taskId st1 = false
  /\ TaskList.visible taskId st2 = false
  /\ TaskList.optimisticTasks (fst (TaskList.step st2 TaskList.TransitionsSettled))
     = TaskList.initialTasks st2.
Proof.
  cbv zeta.
  assert (I : In (TaskList.mkAction TaskList.delete taskId)
                 (TaskList.pendingUpdates (fst (TaskList.handleDelete taskId st)))).
  { simpl. apply in_or_app. right. left. reflexivity. }
  split; [reflexivity|]. split; [|split].
  - apply pending_delete_hides, I.
  - apply pending_delete_hides, run_keeps_update; assumption.
  - reflexivity.
Qed.

Lemma deleted_task_absent_while_pending_witness :
  TaskList.visible 1
    (fst (TaskList.run
            (fst (TaskList.handleDelete 1
                    (TaskList.mount [Sample.task 1 "todo"; Sample.task 2 "done"])))
            [TaskList.CheckedChange (Sample.task 1 "todo");
             TaskList.Rerender [Sample.task 1 "todo"; Sample.task 2 "done"]]))
  = false.
Proof.
  apply (deleted_task_absent_while_pending
           (TaskList.mount [Sample.task 1 "todo"; Sample.task 2 "done"]) 1
           [TaskList.CheckedChange (Sample.task 1 "todo");
            TaskList.Rerender [Sample.task 1 "todo"; Sample.task 2 "done"]]
           eq_refl).
Defined.

(** C4 as stated fails once the transition has settled without a new
    prop (the delete did not go through): the overlay is dropped and the
    task, still in [initialTasks], is shown again. *)
Lemma deleted_task_back_after_settling :
  let st := TaskList.mount [Sample.task 1 "todo"] in
  let st1 := fst (TaskList.handleDelete 1 st) in
  TaskList.visible 1 st = true
  /\ TaskList.visible 1 st1 = false
  /\ TaskList.visible 1 (fst (TaskList.run st1 [TaskList.TransitionsSettled]))
     = true.
Proof. repeat split. Qed.

(** *** Toggling *)

(** C5, as amended. [handleToggle] calls [updateTaskStatus] with the
    opposite of the status of the task it is given, the one on screen:
    [todo] when that is [done], [done] otherwise ([in_progress] included).
    With no update pending the tasks on screen are the confirmed ones. *)
Theorem handleToggle_sends_opposite_of_shown
        (st : TaskList.State) (task : Task.t) :
  exists arg : jsstring,
    snd (TaskList.handleToggle task st)
    = [updateTaskStatus (Task.id task) arg]
    /\ (Task.status task = lit "done" -> arg = lit "todo")
    /\ (Task.status task <> lit "done" -> arg = lit "done")
    /\ (TaskList.pendingUpdates st = [] ->
        TaskList.optimisticTasks st = TaskList.initialTasks st).
Proof.
  unfold TaskList.handleToggle. simpl. eexists. split; [reflexivity|].
  destruct (string_eq (Task.status task) (lit "done")) eqn:E.
  - apply string_eq_true_iff in E. repeat split; try congruence.
    unfold TaskList.optimisticTasks. intros ->. reflexivity.
  - apply string_eq_false_iff in E. repeat split; try congruence.
    unfold TaskList.optimisticTasks. intros ->. reflexivity.
Qed.

Lemma handleToggle_sends_opposite_of_shown_witness :
  exists arg : jsstring,
    snd (TaskList.handleToggle (Sample.task 1 "in_progress")
           (TaskList.mount [Sample.task 1 "in_progress"]))
    = [updateTaskStatus 1 arg]
    /\ arg = lit "done".
Proof.
  destruct (handleToggle_sends_opposite_of_shown
              (TaskList.mount [Sample.task 1 "in_progress"])
              (Sample.task 1 "in_progress")) as (arg & Hc & _ & Hn & _).
  exists arg. split; [exact Hc|]. apply Hn. discriminate.
Defined.

(** C5 as stated fails on a second click before the first has settled:
    the confirmed status is still [todo], the row on screen says [done],
    and the call goes out with [todo]. *)
Lemma second_toggle_sends_confirmed_status :
  let t := Sample.task 1 "todo" in
  let st1 := fst (TaskList.handleToggle t (TaskList.mount [t])) in
  let shown := Task.with_status t (lit "done") in
  TaskList.initialTasks st1 = [t]
  /\ Task.status t = lit "todo"
  /\ TaskList.optimisticTasks st1 = [shown]
  /\ snd (TaskList.handleToggle shown st1) = [updateTaskStatus 1 (lit "todo")].
Proof. repeat split. Qed.

(** ** Initials *)

Lemma split_starts (s : jsstring) :
  match split 32 s with
  | tok :: toks =>
      join (map index0 (tok :: toks)) = Spec.starts Spec.is_space false s
      /\ join (map index0 toks) = Spec.starts Spec.is_space true s
  | [] => False
  end.
Proof.
  induction s as [|c s IH]; simpl; [split; reflexivity|].
  replace (Spec.is_space c) with (c =? 32)%N by reflexivity.
  destruct (c =? 32)%N.
  - destruct (split 32 s) as [|tok toks]; [contradiction|].
    destruct IH as [IH _]. split; exact IH.
  - destruct (split 32 s) as [|tok toks]; [contradiction|].
    destruct IH as [_ IH]. simpl. rewrite IH. split; reflexivity.
Qed.

Lemma tokens_starts (sep : N -> bool) (s : jsstring) :
  List.concat (map (firstn 1) (Spec.tokens sep s)) = Spec.starts sep false s
  /\ match s with
     | [] => True
     | c :: r =>
         sep c = false ->
         match Spec.tokens sep s with
         | tok :: toks =>
             List.concat (map (firstn 1) toks) = Spec.starts sep true r
         | [] => False
         end
     end.
Proof.
  induction s as [|c s IH]; [split; [reflexivity|exact I]|].
  destruct IH as [IH1 IH2]. simpl.
  destruct (sep c) eqn:Ec; [split; [exact IH1|discriminate]|].
  destruct s as [|d r]; [split; [reflexivity|intros _; reflexivity]|].
  destruct (sep d) eqn:Ed.
  - simpl in IH1 |- *. rewrite Ed in IH1 |- *. rewrite IH1.
    split; [reflexivity|intros _; reflexivity].
  - specialize (IH2 eq_refl).
    destruct (Spec.tokens sep (d :: r)) as [|tok toks]; [contradiction|].
    simpl in IH2 |- *. rewrite Ed, IH2. split; [reflexivity|intros _; reflexivity].
Qed.

Lemma starts_spaces_only (inside : bool) (s : jsstring) :
  Spec.spaces_only s = true ->
  Spec.starts Spec.is_space inside s = Spec.starts is_whitespace inside s.
Proof.
  revert inside. induction s as [|c s IH]; simpl; intros inside H; [reflexivity|].
  apply andb_true_iff in H. destruct H as [Hc Hs].
  assert (E : Spec.is_space c = is_whitespace c).
  { unfold Spec.is_space in *. destruct (N.eqb_spec c 32) as [->|]; [reflexivity|].
    rewrite orb_false_r in Hc. apply negb_true_iff in Hc. congruence. }
  rewrite E, !IH by exact Hs. reflexivity.
Qed.

Lemma getInitials_tokens (unicodeUpper : jsstring -> jsstring) (name : jsstring) :
  name <> [] ->
  TaskList.getInitials unicodeUpper (Some name)
  = Spec.initials Spec.is_space unicodeUpper (Some name).
Proof.
  intros Hne. unfold TaskList.getInitials, Spec.initials.
  destruct name as [|c r]; [contradiction|]. cbn [string_truthy negb].
  f_equal. pose proof (split_starts (c :: r)) as S.
  destruct (split 32 (c :: r)) as [|tok toks]; [contradiction|].
  destruct S as [S _]. rewrite S.
  symmetry. apply tokens_starts.
Qed.

(** C6, as amended. For a name that is not empty, the initials are the
    first code units of the tokens between space characters (U+0020),
    concatenated and uppercased; when the name has no other whitespace
    this is the split on whitespace. "Jane Smith" gives "JS", and no name
    ([null]) gives "??". Both components define the same function. *)
Theorem getInitials_splits_on_spaces
        (unicodeUpper : jsstring -> jsstring) (name : jsstring)
        (H : name <> []) :
  TaskList.getInitials unicodeUpper (Some name)
  = Spec.initials Spec.is_space unicodeUpper (Some name)
  /\ TaskComments.getInitials unicodeUpper (Some name)
     = TaskList.getInitials unicodeUpper (Some name)
  /\ (Spec.spaces_only name = true ->
      TaskList.getInitials unicodeUpper (Some name)
      = Spec.initials is_whitespace unicodeUpper (Some name))
  /\ TaskList.getInitials unicodeUpper (Some (lit "Jane Smith")) = lit "JS"
  /\ TaskList.getInitials unicodeUpper None = lit "??"
  /\ TaskComments.getInitials unicodeUpper None = lit "??".
Proof.
  split; [apply getInitials_tokens, H|]. split; [reflexivity|].
  split; [|repeat split].
  intros Hs. rewrite (getInitials_tokens unicodeUpper name H).
  unfold Spec.initials. f_equal.
  rewrite (proj1 (tokens_starts Spec.is_space name)).
  rewrite (proj1 (tokens_starts is_whitespace name)).
  apply starts_spaces_only, Hs.
Qed.

Lemma getInitials_splits_on_spaces_witness :
  TaskList.getInitials Sample.noUnicode (Some (lit "ada  lovelace"))
  = Spec.initials is_whitespace Sample.noUnicode (Some (lit "ada  lovelace"))
  /\ TaskList.getInitials Sample.noUnicode (Some (lit "ada  lovelace")) = lit "AL".
Proof.
  split.
  - apply (getInitials_splits_on_spaces Sample.noUnicode (lit "ada  lovelace")).
    + discriminate.
    + reflexivity.
  - reflexivity.
Defined.

(** C6 as stated fails where the whitespace is not a space, and on the
    empty name: with a tab between the words the code sees one token, and
    the empty string gets the placeholder although it is not [null]. *)
Lemma getInitials_tab_and_empty :
  let jane_tab_smith := lit "Jane" ++ [9%N] ++ lit "Smith" in
  TaskList.getInitials Sample.noUnicode (Some jane_tab_smith) = lit "J"
  /\ TaskComments.getInitials Sample.noUnicode (Some jane_tab_smith) = lit "J"
  /\ Spec.initials is_whitespace Sample.noUnicode (Some jane_tab_smith) = lit "JS"
  /\ TaskList.getInitials Sample.noUnicode (Some (lit "")) = lit "??"
  /\ Spec.initials is_whitespace Sample.noUnicode (Some (lit "")) = lit "".
Proof. repeat split. Qed.

(** C9. The empty string gets the placeholder, like a missing name. *)
Theorem getInitials_empty_name (unicodeUpper : jsstring -> jsstring) :
  TaskList.getInitials unicodeUpper (Some (lit "")) = lit "??"
  /\ TaskComments.getInitials unicodeUpper (Some (lit "")) = lit "??"
  /\ TaskList.getInitials unicodeUpper (Some (lit ""))
     = TaskList.getInitials unicodeUpper None
  /\ TaskComments.getInitials unicodeUpper (Some (lit ""))
     = TaskComments.getInitials unicodeUpper None.
Proof. repeat split. Qed.

(** ** What the comment thread shows *)

Section Rendering.
Variable unicodeUpper : jsstring -> jsstring.
Variable formatDateForDisplay : Date -> jsstring.

Let render := TaskComments.render unicodeUpper formatDateForDisplay.

(** The comments on screen are those of the prop, whatever the state. *)
Lemma shown_is_prop (props : TaskComments.Props) (st : TaskComments.State) :
  TaskComments.shown (render props st)
  = map Comment.id (TaskComments.comments props).
Proof.
  unfold TaskComments.shown, render, TaskComments.render. simpl.
  destruct (TaskComments.comments props) as [|c cs]; [reflexivity|].
  rewrite map_map. reflexivity.
Qed.

Lemma addForm_needs_user (props : TaskComments.Props) (st : TaskComments.State)
      (form : TaskComments.AddForm) :
  TaskComments.addForm (render props st) = Element form ->
  exists u : Z, TaskComments.currentUserId props = Some u.
Proof.
  unfold render, TaskComments.render. simpl.
  destruct (TaskComments.currentUserId props) as [u|]; simpl.
  - intros _. exists u. reflexivity.
  - discriminate.
Qed.

(** C7. When [getCurrentUser] rejects, the error goes to the console and
    the current user stays unset; the comment threads then have no add
    form, which needs a current user id, and still list their
    comments. *)
Theorem rejected_getCurrentUser_hides_add_form
        (st : TaskList.State) (reason : jsstring)
        (task : Task.t) (thread : TaskComments.State)
        (H : TaskList.currentUser st = None) :
  let st' := fst (TaskList.step st (TaskList.CurrentUserSettled (Rejected reason))) in
  let view := render (TaskList.commentsProps st' task) thread in
  snd (TaskList.step st (TaskList.CurrentUserSettled (Rejected reason))) = []
  /\ TaskList.currentUser st' = None
  /\ TaskList.console st'
     = TaskList.console st ++ [(lit "Failed to load current user:", reason)]
  /\ TaskList.optimisticTasks st' = TaskList.optimisticTasks st
  /\ TaskComments.addForm view = Nothing
  /\ TaskComments.shown view
     = map Comment.id
           (match Task.comments task with Some cs => cs | None => [] end)
  /\ TaskComments.heading_count view
     = List.length
         (match Task.comments task with Some cs => cs | None => [] end)
  /\ (forall (props : TaskComments.Props) (form : TaskComments.AddForm),
         TaskComments.addForm (render props thread) = Element form ->
         exists u : Z, TaskComments.currentUserId props = Some u).
Proof.
  cbv zeta. simpl. rewrite H.
  repeat match goal with |- _ /\ _ => split end; try reflexivity.
  - apply shown_is_prop.
  - intros props form. apply addForm_needs_user.
Qed.

(** C8. [handleDeleteComment] calls [deleteComment] and touches nothing
    the list is drawn from: the comments on screen are those of the
    [comments] prop before the call, while it is pending, after it has
    settled and in every later state, the deleted one among them. The
    task list, for its part, drops a deleted task at once. *)
Theorem handleDeleteComment_keeps_comments
        (props : TaskComments.Props) (st : TaskComments.State)
        (commentId : Z) (es : list TaskComments.Event)
        (H : In commentId (map Comment.id (TaskComments.comments props))) :
  let st1 := fst (TaskComments.handleDeleteComment commentId st) in
  let st2 := TaskComments.handleDeleteComment_resume st1 in
  let st3 := fst (TaskComments.run props st1 es) in
  snd (TaskComments.handleDeleteComment commentId st) = [deleteComment commentId]
  /\ TaskComments.shown (render props st1) = TaskComments.shown (render props st)
  /\ TaskComments.shown (render props st2) = TaskComments.shown (render props st)
  /\ TaskComments.shown (render props st3) = TaskComments.shown (render props st)
  /\ In commentId (TaskComments.shown (render props st3))
  /\ TaskComments.heading_count (render props st3)
     = List.length (TaskComments.comments props)
  /\ (forall (tasks : TaskList.State) (taskId : Z),
         TaskList.visible taskId (fst (TaskList.handleDelete taskId tasks))
         = false).
Proof.
  cbv zeta. rewrite !shown_is_prop.
  repeat match goal with |- _ /\ _ => split end; try reflexivity.
  - exact H.
  - intros tasks taskId. apply pending_delete_hides. simpl.
    apply in_or_app. right. left. reflexivity.
Qed.

End Rendering.

Lemma rejected_getCurrentUser_hides_add_form_witness :
  TaskComments.addForm
    (TaskComments.render Sample.noUnicode Sample.isoDate
       (TaskList.commentsProps
          (fst (TaskList.step (TaskList.mount [Sample.task 1 "todo"])
                  (TaskList.CurrentUserSettled (Rejected (lit "no session")))))
          (Sample.task 1 "todo"))
       TaskComments.initial)
  = Nothing
  /\ TaskComments.shown
       (TaskComments.render Sample.noUnicode Sample.isoDate
          (TaskList.commentsProps
             (fst (TaskList.step (TaskList.mount [Sample.task 1 "todo"])
                     (TaskList.CurrentUserSettled (Rejected (lit "no session")))))
             (Sample.task 1 "todo"))
          TaskComments.initial)
     = [10].
Proof.
  destruct (rejected_getCurrentUser_hides_add_form
              Sample.noUnicode Sample.isoDate
              (TaskList.mount [Sample.task 1 "todo"]) (lit "no session")
              (Sample.task 1 "todo") TaskComments.initial eq_refl)
    as (_ & _ & _ & _ & F & S & _).
  split; [exact F | exact S].
Defined.

Lemma handleDeleteComment_keeps_comments_witness :
  In 10
     (TaskComments.shown
        (TaskComments.render Sample.noUnicode Sample.isoDate
           (TaskComments.mkProps 1 [Sample.hello] (Some 2) (Some 3))
           (fst (TaskComments.run
                   (TaskComments.mkProps 1 [Sample.hello] (Some 2) (Some 3))
                   (fst (TaskComments.handleDeleteComment 10 TaskComments.initial))
                   [TaskComments.DeleteCommentSettled])))).
Proof.
  destruct (handleDeleteComment_keeps_comments
              Sample.noUnicode Sample.isoDate
              (TaskComments.mkProps 1 [Sample.hello] (Some 2) (Some 3))
              TaskComments.initial 10 [TaskComments.DeleteCommentSettled]
              (or_introl eq_refl))
    as (_ & _ & _ & _ & I & _).
  exact I.
Defined.

(* ================================================================= *)
(** * Further properties of the two components *)

(** ** The algebra of the overlay's updates *)

Local Abbreviation toggled i :=
  (fun t : Task.t =>
     if Task.id t =? i
     then Task.with_status t
            (if string_eq (Task.status t) (lit "done")
             then lit "todo" else lit "done")
     else t).

Lemma filter_filter_swap {A : Type} (p q : A -> bool) (l : list A) :
  filter p (filter q l) = filter q (filter p l).
Proof.
  induction l as [|x l IH]; simpl; [reflexivity|].
  destruct (q x) eqn:Q, (p x) eqn:P; simpl; rewrite ?Q, ?P, IH; reflexivity.
Qed.

Lemma filter_map_swap {A : Type} (p : A -> bool) (f : A -> A) (l : list A) :
  (forall x, p (f x) = p x) ->
  filter p (map f l) = map f (filter p l).
Proof.
  intros E. induction l as [|x l IH]; simpl; [reflexivity|].
  rewrite E. destruct (p x); simpl; rewrite IH; reflexivity.
Qed.

Lemma toggled_id (i : Z) (t : Task.t) : Task.id (toggled i t) = Task.id t.
Proof. cbv beta. destruct (Task.id t =? i); reflexivity. Qed.

Lemma toggled_swap (i j : Z) (t : Task.t) :
  toggled i (toggled j t) = toggled j (toggled i t).
Proof.
  cbv beta.
  destruct (Task.id t =? i) eqn:Ei, (Task.id t =? j) eqn:Ej; simpl;
    rewrite ?Ei, ?Ej; reflexivity.
Qed.

Lemma reducer_commute (state : list Task.t) (a b : TaskList.OptimisticAction) :
  TaskList.reducer (TaskList.reducer state a) b
  = TaskList.reducer (TaskList.reducer state b) a.
Proof.
  unfold TaskList.reducer.
  destruct (TaskList.action a), (TaskList.action b).
  - apply filter_filter_swap.
  - symmetry. apply filter_map_swap. intros x.
    rewrite (toggled_id (TaskList.task_id b) x). reflexivity.
  - apply filter_map_swap. intros x.
    rewrite (toggled_id (TaskList.task_id a) x). reflexivity.
  - rewrite !map_map. apply map_ext. intros t.
    apply (toggled_swap (TaskList.task_id b) (TaskList.task_id a) t).
Qed.

Lemma fold_reducer_permutation (q1 q2 : list TaskList.OptimisticAction) :
  Permutation q1 q2 ->
  forall state : list Task.t,
    fold_left TaskList.reducer q1 state = fold_left TaskList.reducer q2 state.
Proof.
  induction 1 as [|a q1 q2 _ IH|a b q|q1 q2 q3 _ IH1 _ IH2]; intros state; simpl.
  - reflexivity.
  - apply IH.
  - rewrite reducer_commute. reflexivity.
  - rewrite IH1. apply IH2.
Qed.

(** X1. The list on screen does not depend on the order in which the
    pending updates were dispatched: two instances with the same prop and
    the same updates, in any order, show the same tasks. *)
Theorem overlay_order_independent
        (st st' : TaskList.State)
        (Hprop : TaskList.initialTasks st = TaskList.initialTasks st')
        (Hperm : Permutation (TaskList.pendingUpdates st)
                             (TaskList.pendingUpdates st')) :
  TaskList.optimisticTasks st = TaskList.optimisticTasks st'.
Proof.
  unfold TaskList.optimisticTasks. rewrite Hprop.
  apply fold_reducer_permutation, Hperm.
Qed.

Lemma overlay_order_independent_witness :
  TaskList.optimisticTasks
    (fst (TaskList.handleDelete 2
            (fst (TaskList.handleToggle (Sample.task 1 "todo")
                    (TaskList.mount [Sample.task 1 "todo"; Sample.task 2 "done"])))))
  = TaskList.optimisticTasks
      (fst (TaskList.handleToggle (Sample.task 1 "todo")
              (fst (TaskList.handleDelete 2
                      (TaskList.mount [Sample.task 1 "todo"; Sample.task 2 "done"]))))).
Proof.
  apply overlay_order_independent; [reflexivity|]. simpl. apply perm_swap.
Defined.

Lemma reducer_absent_noop (state : list Task.t) (kind : TaskList.ActionKind)
      (i : Z) :
  existsb (fun t => Task.id t =? i) state = false ->
  TaskList.reducer state (TaskList.mkAction kind i) = state.
Proof.
  intros H. unfold TaskList.reducer. destruct kind; simpl.
  - induction state as [|x l IH]; simpl in *; [reflexivity|].
    apply orb_false_iff in H. destruct H as [Hx Hl].
    rewrite Hx. simpl. rewrite (IH Hl). reflexivity.
  - induction state as [|x l IH]; simpl in *; [reflexivity|].
    apply orb_false_iff in H. destruct H as [Hx Hl].
    rewrite Hx, (IH Hl). reflexivity.
Qed.

(** X2. Once a task has been toggled, two more toggles change nothing:
    three toggles of a task show what one toggle shows, for every status
    the task started with. *)
Theorem toggle_thrice_is_once (state : list Task.t) (i : Z) :
  let a := TaskList.mkAction TaskList.toggle i in
  TaskList.reducer (TaskList.reducer (TaskList.reducer state a) a) a
  = TaskList.reducer state a.
Proof.
  cbv zeta. unfold TaskList.reducer. simpl. rewrite !map_map.
  apply map_ext. intros t. cbv beta.
  destruct (Task.id t =? i) eqn:E; simpl; rewrite ?E; simpl; rewrite ?E;
    [|reflexivity].
  destruct (string_eq (Task.status t) (lit "done")); reflexivity.
Qed.

(** X3. Deleting is idempotent and absorbs the toggles of the same task,
    before or after it: with a delete of a task pending, its toggles make
    no difference to the list. *)
Theorem delete_absorbs (state : list Task.t) (i : Z) :
  let del := TaskList.mkAction TaskList.delete i in
  let tog := TaskList.mkAction TaskList.toggle i in
  TaskList.reducer (TaskList.reducer state del) del = TaskList.reducer state del
  /\ TaskList.reducer (TaskList.reducer state tog) del = TaskList.reducer state del
  /\ TaskList.reducer (TaskList.reducer state del) tog = TaskList.reducer state del.
Proof.
  cbv zeta.
  assert (T : forall kind : TaskList.ActionKind,
             TaskList.reducer
               (TaskList.reducer state (TaskList.mkAction TaskList.delete i))
               (TaskList.mkAction kind i)
             = TaskList.reducer state (TaskList.mkAction TaskList.delete i)).
  { intros kind. apply reducer_absent_noop, reducer_delete_absent. }
  split; [apply T|]. split; [|apply T].
  rewrite reducer_commute. apply T.
Qed.

(** X4. Dispatching an update, toggle or delete, for a task that is not
    on screen changes nothing on screen. *)
Theorem update_of_unseen_task
        (st : TaskList.State) (kind : TaskList.ActionKind) (i : Z)
        (H : TaskList.visible i st = false) :
  TaskList.optimisticTasks
    (TaskList.setOptimisticTasks (TaskList.mkAction kind i) st)
  = TaskList.optimisticTasks st.
Proof.
  rewrite optimisticTasks_set. apply reducer_absent_noop. exact H.
Qed.

Lemma update_of_unseen_task_witness :
  TaskList.optimisticTasks
    (TaskList.setOptimisticTasks (TaskList.mkAction TaskList.delete 7)
       (TaskList.mount [Sample.task 1 "todo"; Sample.task 2 "done"]))
  = [Sample.task 1 "todo"; Sample.task 2 "done"].
Proof.
  apply (update_of_unseen_task
           (TaskList.mount [Sample.task 1 "todo"; Sample.task 2 "done"])
           TaskList.delete 7 eq_refl).
Defined.

(** ** What the list can show and send *)

Lemma reducer_toggle_ids (state : list Task.t) (i : Z) :
  map Task.id (TaskList.reducer state (TaskList.mkAction TaskList.toggle i))
  = map Task.id state.
Proof.
  unfold TaskList.reducer. simpl. rewrite map_map. apply map_ext.
  intros t. apply (toggled_id i t).
Qed.

Lemma reducer_ids (state : list Task.t) (a : TaskList.OptimisticAction) :
  incl (map Task.id (TaskList.reducer state a)) (map Task.id state)
  /\ (List.length (TaskList.reducer state a) <= List.length state)%nat.
Proof.
  destruct a as [[|] i].
  - unfold TaskList.reducer. simpl. split.
    + intros x Hx. apply in_map_iff in Hx. destruct Hx as (t & <- & Ht).
      apply filter_In in Ht. apply in_map, Ht.
    + apply filter_length_le.
  - split.
    + rewrite reducer_toggle_ids. apply incl_refl.
    + unfold TaskList.reducer. simpl. rewrite length_map. apply Nat.le_refl.
Qed.

(** X5. Whatever updates are pending, the list on screen has no more
    tasks than the prop and no task whose id is not in the prop; with only
    toggles pending it has the prop's tasks, id by id in the same order. *)
Theorem overlay_within_prop (st : TaskList.State) :
  incl (map Task.id (TaskList.optimisticTasks st))
       (map Task.id (TaskList.initialTasks st))
  /\ (List.length (TaskList.optimisticTasks st)
      <= List.length (TaskList.initialTasks st))%nat
  /\ (forallb (fun a => match TaskList.action a with
                        | TaskList.toggle => true
                        | TaskList.delete => false
                        end) (TaskList.pendingUpdates st) = true ->
      map Task.id (TaskList.optimisticTasks st)
      = map Task.id (TaskList.initialTasks st)).
Proof.
  unfold TaskList.optimisticTasks.
  generalize (TaskList.initialTasks st) as state.
  induction (TaskList.pendingUpdates st) as [|a queue IH]; intros state; simpl.
  - split; [apply incl_refl|]. split; [apply Nat.le_refl|reflexivity].
  - destruct (IH (TaskList.reducer state a)) as (I & L & T).
    destruct (reducer_ids state a) as (I1 & L1).
    split; [eapply incl_tran; eauto|]. split; [lia|].
    intros H. apply andb_true_iff in H. destruct H as [Ha Hq].
    rewrite (T Hq). destruct a as [[|] i]; [discriminate|].
    apply reducer_toggle_ids.
Qed.

(** X6. Ticking a task's checkbox flips it, whatever the task's status
    was: the card stays in its place with its name and initials, and its
    checkbox shows the opposite of before. *)
Theorem toggle_flips_checkbox
        (unicodeUpper : jsstring -> jsstring)
        (st : TaskList.State) (k : nat) (t : Task.t)
        (H : nth_error (TaskList.optimisticTasks st) k = Some t) :
  exists row : TaskList.Row,
    nth_error (TaskList.render unicodeUpper (fst (TaskList.handleToggle t st))) k
    = Some row
    /\ TaskList.row_key row = Task.id t
    /\ TaskList.row_checked row
       = negb (TaskList.row_checked (TaskList.render_row unicodeUpper st t))
    /\ TaskList.row_name row = Task.name t
    /\ TaskList.row_initials row
       = TaskList.row_initials (TaskList.render_row unicodeUpper st t).
Proof.
  unfold TaskList.render, TaskList.handleToggle. cbn [fst].
  rewrite optimisticTasks_set.
  change (TaskList.optimisticTasks (TaskList.startTransition st))
    with (TaskList.optimisticTasks st).
  rewrite nth_error_map, reducer_toggle_nth, H. simpl.
  rewrite Z.eqb_refl. eexists. split; [reflexivity|]. simpl.
  repeat split.
  destruct (string_eq (Task.status t) (lit "done")); reflexivity.
Qed.

Lemma toggle_flips_checkbox_witness :
  exists row : TaskList.Row,
    nth_error
      (TaskList.render Sample.noUnicode
         (fst (TaskList.handleToggle (Sample.task 1 "in_progress")
                 (TaskList.mount [Sample.task 1 "in_progress"])))) 0
    = Some row
    /\ TaskList.row_checked row = true.
Proof.
  destruct (toggle_flips_checkbox Sample.noUnicode
              (TaskList.mount [Sample.task 1 "in_progress"]) 0%nat
              (Sample.task 1 "in_progress") eq_refl)
    as (row & Hn & _ & Hc & _).
  exists row. split; [exact Hn | exact Hc].
Defined.

Lemma TaskList_run_cons (st : TaskList.State) (e : TaskList.Event)
      (es : list TaskList.Event) :
  TaskList.run st (e :: es)
  = (fst (TaskList.run (fst (TaskList.step st e)) es),
     snd (TaskList.step st e) ++ snd (TaskList.run (fst (TaskList.step st e)) es)).
Proof.
  simpl. destruct (TaskList.step st e) as [st1 calls1]. cbn [fst snd].
  destruct (TaskList.run st1 es) as [st2 calls2]. reflexivity.
Qed.

(** X7. Over any sequence of events the list calls nothing but
    [deleteTask] and [updateTaskStatus], one call for each click and none
    otherwise, and the status it sends is always [todo] or [done]. *)
Theorem TaskList_calls (st : TaskList.State) (es : list TaskList.Event) :
  Forall (fun c => match c with
                   | deleteTask _ => True
                   | updateTaskStatus _ s => s = lit "todo" \/ s = lit "done"
                   | _ => False
                   end)
         (snd (TaskList.run st es))
  /\ List.length (snd (TaskList.run st es))
     = List.length (filter (fun e => match e with
                                     | TaskList.CheckedChange _ => true
                                     | TaskList.ClickDelete _ => true
                                     | _ => false
                                     end) es).
Proof.
  revert st. induction es as [|e es IH]; intros st.
  - split; [constructor|reflexivity].
  - rewrite TaskList_run_cons. cbn [snd].
    destruct (IH (fst (TaskList.step st e))) as [F L].
    rewrite length_app, L. split.
    + apply Forall_app. split; [|exact F].
      destruct e as [task|taskId|outcome| |tasks]; simpl.
      * constructor; [|constructor].
        destruct (string_eq (Task.status task) (lit "done"));
          [left|right]; reflexivity.
      * constructor; [exact I|constructor].
      * constructor.
      * constructor.
      * constructor.
    + destruct e; reflexivity.
Qed.

(** ** The comment thread: what it sends and what its controls do *)

Lemma and_element_Element {A : Type} (cond : value) (el b : A) :
  and_element cond el = Element b <-> truthy cond = true /\ b = el.
Proof.
  destruct cond as [|n|[|]]; simpl.
  - split; [discriminate|intros [H _]; discriminate].
  - destruct (n =? 0); simpl.
    + split; [discriminate|intros [H _]; discriminate].
    + split; [intros H; inversion H; auto|intros [_ ->]; reflexivity].
  - split; [intros H; inversion H; auto|intros [_ ->]; reflexivity].
  - split; [discriminate|intros [H _]; discriminate].
Qed.

Lemma TaskComments_run_cons (props : TaskComments.Props)
      (st : TaskComments.State) (e : TaskComments.Event)
      (es : list TaskComments.Event) :
  TaskComments.run props st (e :: es)
  = (fst (TaskComments.run props (fst (TaskComments.step props st e)) es),
     snd (TaskComments.step props st e)
     ++ snd (TaskComments.run props (fst (TaskComments.step props st e)) es)).
Proof.
  simpl. destruct (TaskComments.step props st e) as [st1 calls1]. cbn [fst snd].
  destruct (TaskComments.run props st1 es) as [st2 calls2]. reflexivity.
Qed.

(** X8. Over any sequence of events the thread calls nothing but
    [addComment] and [deleteComment]; every [addComment] is for the
    thread's own task and carries a text that is not blank. Typing alone
    calls nothing. *)
Theorem TaskComments_calls
        (props : TaskComments.Props) (st : TaskComments.State)
        (es : list TaskComments.Event) :
  Forall (fun c => match c with
                   | addComment t content =>
                       t = TaskComments.taskId props
                       /\ forallb is_whitespace content = false
                   | deleteComment _ => True
                   | _ => False
                   end)
         (snd (TaskComments.run props st es))
  /\ (forallb (fun e => match e with
                        | TaskComments.Change _ => true
                        | _ => false
                        end) es = true ->
      snd (TaskComments.run props st es) = []).
Proof.
  revert st. induction es as [|e es IH]; intros st.
  - split; [constructor|reflexivity].
  - rewrite TaskComments_run_cons. cbn [snd].
    destruct (IH (fst (TaskComments.step props st e))) as [F T]. split.
    + apply Forall_app. split; [|exact F].
      destruct e as [v| |r|c|]; simpl; try constructor.
      * unfold TaskComments.handleAddComment. rewrite blank_iff.
        destruct (forallb is_whitespace (TaskComments.newComment st)) eqn:B;
          simpl; constructor; [split; [reflexivity|exact B]|constructor].
      * exact I.
      * constructor.
    + intros H. simpl in H. destruct e; try discriminate.
      rewrite (T H). reflexivity.
Qed.

Section Controls.
Variable unicodeUpper : jsstring -> jsstring.
Variable formatDateForDisplay : Date -> jsstring.

Let render := TaskComments.render unicodeUpper formatDateForDisplay.
Let render_card := TaskComments.render_card unicodeUpper formatDateForDisplay.

(** X9. The submit button and the handler agree: when the form is on
    screen with its button enabled, a click sends exactly one [addComment]
    with the text in the box, and no transition is pending; when the button
    is disabled although nothing is pending, a call to the handler would
    send nothing and change nothing. *)
Theorem submit_button_matches_guard
        (props : TaskComments.Props) (st : TaskComments.State)
        (form : TaskComments.AddForm)
        (H : TaskComments.addForm (render props st) = Element form) :
  (TaskComments.submit_disabled form = false ->
     snd (TaskComments.step props st TaskComments.ClickAdd)
     = [addComment (TaskComments.taskId props) (TaskComments.textarea_value form)]
     /\ TaskComments.isPending st = false)
  /\ (TaskComments.submit_disabled form = true ->
      TaskComments.isPending st = false ->
      TaskComments.step props st TaskComments.ClickAdd = (st, [])).
Proof.
  unfold render, TaskComments.render in H. simpl in H.
  apply and_element_Element in H. destruct H as [_ ->]. simpl.
  unfold TaskComments.handleAddComment.
  destruct (negb (string_truthy (trim (TaskComments.newComment st)))) eqn:B;
    simpl; split; intros D; try discriminate.
  - reflexivity.
  - split; [reflexivity|exact D].
  - intros P. rewrite P in D. discriminate.
Qed.

(** X10. A comment's card carries a delete button exactly when the
    current user has a non-zero id and is the comment's author or the
    task's creator. The button deletes that very comment and is disabled
    while a transition is pending. *)
Theorem delete_button_shown_iff
        (props : TaskComments.Props) (st : TaskComments.State)
        (comment : Comment.t) :
  let card := render_card props st comment in
  ((exists b, TaskComments.card_delete card = Element b) <->
   (exists u : Z,
       TaskComments.currentUserId props = Some u /\ u <> 0 /\
       (Comment.authorId comment = u
        \/ TaskComments.taskCreatorId props = Some u)))
  /\ (forall b : TaskComments.DeleteButton,
         TaskComments.card_delete card = Element b ->
         TaskComments.delete_disabled b = TaskComments.isPending st
         /\ snd (TaskComments.step props st
                   (TaskComments.ClickDelete (TaskComments.delete_onClick b)))
            = [deleteComment (Comment.id comment)]).
Proof.
  cbv zeta. unfold render_card, TaskComments.render_card. simpl. split.
  - split.
    + intros (b & Hb). apply and_element_Element in Hb. destruct Hb as [T _].
      rewrite canDeleteComment_cases in T.
      destruct (TaskComments.currentUserId props) as [u|]; [|discriminate].
      destruct (u =? 0) eqn:Hu; [discriminate|]. apply Z.eqb_neq in Hu.
      exists u. split; [reflexivity|]. split; [exact Hu|].
      simpl in T. apply orb_true_iff in T. destruct T as [T|T].
      * left. apply Z.eqb_eq, T.
      * right. destruct (TaskComments.taskCreatorId props) as [c|];
          [|discriminate]. apply Z.eqb_eq in T. congruence.
    + intros (u & Hc & Hu & Hor). eexists. apply and_element_Element.
      split; [|reflexivity]. rewrite canDeleteComment_cases, Hc.
      apply Z.eqb_neq in Hu. rewrite Hu. simpl.
      apply orb_true_iff. destruct Hor as [-> | ->];
        [left|right]; apply Z.eqb_refl.
  - intros b Hb. apply and_element_Element in Hb. destruct Hb as [_ ->].
    split; reflexivity.
Qed.

(** X11. In the dialog of a task, the task's creator, when logged in with
    a non-zero id, gets a delete button on every comment of the thread,
    whoever wrote it. *)
Theorem creator_moderates_thread
        (tasks : TaskList.State) (task : Task.t) (thread : TaskComments.State)
        (u : User.t)
        (Hu : TaskList.currentUser tasks = Some u)
        (Hc : User.id u = Task.creatorId task)
        (Hz : User.id u <> 0) :
  forall cards : list TaskComments.CommentCard,
    TaskComments.commentsList
      (render (TaskList.commentsProps tasks task) thread) = TaskComments.Cards cards ->
    List.length cards = TaskComments.heading_count
                          (render (TaskList.commentsProps tasks task) thread)
    /\ Forall (fun card =>
                 exists b, TaskComments.card_delete card = Element b)
              cards.
Proof.
  intros cards. unfold render, TaskComments.render. simpl.
  destruct (match Task.comments task with Some cs => cs | None => [] end)
    as [|c cs] eqn:E; [discriminate|].
  intros H. inversion H; subst cards; clear H. split.
  - simpl. rewrite length_map. reflexivity.
  - apply (Forall_map
             (TaskComments.render_card unicodeUpper formatDateForDisplay
                (TaskList.commentsProps tasks task) thread)
             (fun card => exists b, TaskComments.card_delete card = Element b)
             (c :: cs)).
    apply Forall_forall. intros comment _.
    eexists. apply and_element_Element. split; [|reflexivity].
    rewrite canDeleteComment_cases.
    unfold TaskList.commentsProps. simpl. rewrite Hu. simpl.
    apply Z.eqb_neq in Hz. rewrite Hz, Hc, Z.eqb_refl, orb_true_r. reflexivity.
Qed.

End Controls.

Lemma submit_button_matches_guard_witness :
  snd (TaskComments.step (TaskComments.mkProps 1 [Sample.hello] (Some 2) (Some 3))
         (TaskComments.mkState (lit "hi") false) TaskComments.ClickAdd)
  = [addComment 1 (lit "hi")].
Proof.
  apply (proj1 (submit_button_matches_guard
                  Sample.noUnicode Sample.isoDate
                  (TaskComments.mkProps 1 [Sample.hello] (Some 2) (Some 3))
                  (TaskComments.mkState (lit "hi") false)
                  (TaskComments.mkAddForm (lit "hi") false false (lit "Add Comment"))
                  eq_refl) eq_refl).
Defined.

Lemma creator_moderates_thread_witness :
  exists b : TaskComments.DeleteButton,
    TaskComments.card_delete
      (TaskComments.render_card Sample.noUnicode Sample.isoDate
         (TaskList.commentsProps
            (TaskList.loadCurrentUser
               (Fulfilled (Some (User.mk 3 (lit "Bo") (lit "bo@example.com"))))
               (TaskList.mount [Sample.task 1 "todo"]))
            (Sample.task 1 "todo"))
         TaskComments.initial Sample.hello)
    = Element b.
Proof.
  destruct (creator_moderates_thread
              Sample.noUnicode Sample.isoDate
              (TaskList.loadCurrentUser
                 (Fulfilled (Some (User.mk 3 (lit "Bo") (lit "bo@example.com"))))
                 (TaskList.mount [Sample.task 1 "todo"]))
              (Sample.task 1 "todo") TaskComments.initial
              (User.mk 3 (lit "Bo") (lit "bo@example.com"))
              eq_refl eq_refl ltac:(discriminate) _ eq_refl) as [_ F].
  exact (Forall_inv F).
Defined.






(** ** More on the initials *)

Lemma heads_starts (s : jsstring) :
  join (map index0 (split 32 s)) = Spec.starts Spec.is_space false s.
Proof.
  pose proof (split_starts s) as H.
  destruct (split 32 s) as [|tok toks]; [contradiction|]. apply H.
Qed.

Lemma getInitials_starts (unicodeUpper : jsstring -> jsstring) (name : jsstring) :
  name <> [] ->
  TaskList.getInitials unicodeUpper (Some name)
  = toUpperCase unicodeUpper (Spec.starts Spec.is_space false name)
  /\ TaskComments.getInitials unicodeUpper (Some name)
     = toUpperCase unicodeUpper (Spec.starts Spec.is_space false name).
Proof.
  intros H. destruct name as [|c r]; [contradiction|].
  unfold TaskList.getInitials, TaskComments.getInitials.
  cbn [string_truthy negb]. rewrite heads_starts. split; reflexivity.
Qed.

Lemma starts_trailing_space (inside : bool) (s : jsstring) :
  Spec.starts Spec.is_space inside (s ++ [32%N])
  = Spec.starts Spec.is_space inside s.
Proof.
  revert inside. induction s as [|c s IH]; intros inside; simpl; [reflexivity|].
  rewrite !IH. reflexivity.
Qed.

Lemma starts_double_space (inside : bool) (a b : jsstring) :
  Spec.starts Spec.is_space inside (a ++ 32%N :: 32%N :: b)
  = Spec.starts Spec.is_space inside (a ++ 32%N :: b).
Proof.
  revert inside. induction a as [|c a IH]; intros inside; simpl; [reflexivity|].
  rewrite !IH. reflexivity.
Qed.

Lemma starts_all_spaces (inside : bool) (s : jsstring) :
  forallb (N.eqb 32) s = true -> Spec.starts Spec.is_space inside s = [].
Proof.
  revert inside. induction s as [|c s IH]; intros inside H; simpl; [reflexivity|].
  cbn [forallb] in H. apply andb_true_iff in H. destruct H as [Hc Hs].
  apply N.eqb_eq in Hc. subst c. simpl. apply IH, Hs.
Qed.

(** X14. A name that is not empty but made of spaces only gets empty
    initials, not the placeholder. *)
Theorem getInitials_of_spaces
        (unicodeUpper : jsstring -> jsstring) (name : jsstring)
        (Hne : name <> [])
        (Hsp : forallb (N.eqb 32) name = true) :
  TaskList.getInitials unicodeUpper (Some name) = lit ""
  /\ TaskComments.getInitials unicodeUpper (Some name) = lit "".
Proof.
  destruct (getInitials_starts unicodeUpper name Hne) as [-> ->].
  rewrite (starts_all_spaces false name Hsp). split; reflexivity.
Qed.

Lemma getInitials_of_spaces_witness :
  TaskList.getInitials Sample.noUnicode (Some (lit "   ")) = lit "".
Proof.
  apply (getInitials_of_spaces Sample.noUnicode (lit "   ")
           ltac:(discriminate) eq_refl).
Defined.

(** X15. Extra spaces do not change the initials of a name: not a space
    in front, not a space at the end, not a doubled space inside. *)
Theorem getInitials_ignores_extra_spaces
        (unicodeUpper : jsstring -> jsstring) (name : jsstring)
        (H : name <> []) :
  TaskList.getInitials unicodeUpper (Some (32%N :: name))
  = TaskList.getInitials unicodeUpper (Some name)
  /\ TaskList.getInitials unicodeUpper (Some (name ++ [32%N]))
     = TaskList.getInitials unicodeUpper (Some name)
  /\ (forall rest : jsstring,
         TaskList.getInitials unicodeUpper (Some (name ++ 32%N :: 32%N :: rest))
         = TaskList.getInitials unicodeUpper (Some (name ++ 32%N :: rest))).
Proof.
  assert (A : forall s : jsstring, name ++ s <> []).
  { intros s E. apply app_eq_nil in E. destruct E as [E _]. contradiction. }
  split; [|split; [|intros rest]].
  - etransitivity;
      [exact (proj1 (getInitials_starts unicodeUpper (32%N :: name)
                       ltac:(discriminate)))|].
    symmetry. exact (proj1 (getInitials_starts unicodeUpper name H)).
  - etransitivity;
      [exact (proj1 (getInitials_starts unicodeUpper _ (A [32%N])))|].
    rewrite starts_trailing_space.
    symmetry. exact (proj1 (getInitials_starts unicodeUpper name H)).
  - etransitivity;
      [exact (proj1 (getInitials_starts unicodeUpper _
                       (A (32%N :: 32%N :: rest))))|].
    rewrite starts_double_space.
    symmetry. exact (proj1 (getInitials_starts unicodeUpper _ (A (32%N :: rest)))).
Qed.

Lemma getInitials_ignores_extra_spaces_witness :
  TaskList.getInitials Sample.noUnicode (Some (lit " Jane Smith"))
  = TaskList.getInitials Sample.noUnicode (Some (lit "Jane Smith")).
Proof.
  apply (getInitials_ignores_extra_spaces Sample.noUnicode (lit "Jane Smith")
           ltac:(discriminate)).
Defined.

Lemma starts_length (s : jsstring) :
  (2 * List.length (Spec.starts Spec.is_space false s) <= List.length s + 1
   /\ 2 * List.length (Spec.starts Spec.is_space true s) <= List.length s)%nat.
Proof.
  induction s as [|c s [IHf IHt]]; simpl; [lia|].
  destruct (Spec.is_space c); simpl; lia.
Qed.

Lemma starts_members (inside : bool) (s : jsstring) (c : N) :
  In c (Spec.starts Spec.is_space inside s) ->
  In c s /\ Spec.is_space c = false.
Proof.
  revert inside. induction s as [|d s IH]; intros inside; simpl; [contradiction|].
  destruct (Spec.is_space d) eqn:E.
  - intros H. apply IH in H. tauto.
  - destruct inside.
    + intros H. apply IH in H. tauto.
    + intros [->|H]; [tauto|]. apply IH in H. tauto.
Qed.

(** X16. For a name of ASCII code units the initials do not depend on
    the run time's case mapping: they are ASCII, with no lower-case letter
    and no space among them, and a name of n code units has at most
    (n + 1) / 2 of them. *)
Theorem getInitials_ascii_shape
        (unicodeUpper : jsstring -> jsstring) (name : jsstring)
        (Hne : name <> [])
        (Hascii : forallb is_ascii name = true) :
  let initials := TaskList.getInitials unicodeUpper (Some name) in
  forallb (fun c => (c <? 128) && negb ((97 <=? c) && (c <=? 122))
                    && negb (c =? 32))%N initials = true
  /\ (2 * List.length initials <= List.length name + 1)%nat
  /\ TaskComments.getInitials unicodeUpper (Some name) = initials.
Proof.
  cbv zeta.
  destruct (getInitials_starts unicodeUpper name Hne) as [-> ->].
  assert (M : forall c, In c (Spec.starts Spec.is_space false name) ->
                        is_ascii c = true /\ Spec.is_space c = false).
  { intros c Hc. apply starts_members in Hc. destruct Hc as [Hin Hs].
    split; [|exact Hs]. rewrite forallb_forall in Hascii. apply Hascii, Hin. }
  unfold toUpperCase.
  replace (forallb is_ascii (Spec.starts Spec.is_space false name)) with true
    by (symmetry; apply forallb_forall; intros c Hc; apply M, Hc).
  split; [|split; [|reflexivity]].
  - apply forallb_forall. intros c Hc. apply in_map_iff in Hc.
    destruct Hc as (d & <- & Hd). apply M in Hd. destruct Hd as [Ha Hs].
    unfold is_ascii, Spec.is_space, ascii_upper in *.
    apply N.ltb_lt in Ha. apply N.eqb_neq in Hs.
    destruct ((97 <=? d) && (d <=? 122))%N eqn:L.
    + apply andb_true_iff in L. destruct L as [L1 L2].
      apply N.leb_le in L1. apply N.leb_le in L2.
      rewrite !andb_true_iff, !negb_true_iff, andb_false_iff.
      repeat split.
      * apply N.ltb_lt. lia.
      * left. apply N.leb_gt. lia.
      * apply N.eqb_neq. lia.
    + rewrite L. rewrite !andb_true_iff, !negb_true_iff.
      repeat split; [apply N.ltb_lt; lia | apply N.eqb_neq; exact Hs].
  - rewrite length_map. apply starts_length.
Qed.

Lemma getInitials_ascii_shape_witness :
  (2 * List.length (TaskList.getInitials Sample.noUnicode (Some (lit "a b c")))
   <= List.length (lit "a b c") + 1)%nat.
Proof.
  apply (getInitials_ascii_shape Sample.noUnicode (lit "a b c")
           ltac:(discriminate) eq_refl).
Defined.

(** ** The rest of the card *)

Lemma replace_first (pattern replacement : N) (a b : jsstring) :
  forallb (fun c => negb (c =? pattern)%N) a = true ->
  TaskListView.replace pattern replacement (a ++ pattern :: b)
  = a ++ replacement :: b.
Proof.
  induction a as [|c a IH]; simpl; intros H.
  - rewrite N.eqb_refl. reflexivity.
  - apply andb_true_iff in H. destruct H as [Hc Ha].
    apply negb_true_iff in Hc. rewrite Hc, (IH Ha). reflexivity.
Qed.

(** X17. The status badge shows the status with its first underscore
    turned into a space and everything else as it is, later underscores
    included; a status without an underscore is shown unchanged, and the
    length never changes. *)
Theorem statusBadge_first_underscore (task : Task.t) :
  List.length (TaskListView.statusBadge task) = List.length (Task.status task)
  /\ (forall a b : jsstring,
         Task.status task = a ++ 95%N :: b ->
         forallb (fun c => negb (c =? 95)%N) a = true ->
         TaskListView.statusBadge task = a ++ 32%N :: b)
  /\ (forallb (fun c => negb (c =? 95)%N) (Task.status task) = true ->
      TaskListView.statusBadge task = Task.status task).
Proof.
  unfold TaskListView.statusBadge. split; [|split].
  - induction (Task.status task) as [|c s IH]; simpl; [reflexivity|].
    destruct (c =? 95)%N; simpl; [reflexivity|]. rewrite IH. reflexivity.
  - intros a b -> H. apply replace_first, H.
  - induction (Task.status task) as [|c s IH]; simpl; [reflexivity|].
    intros H. apply andb_true_iff in H. destruct H as [Hc Hs].
    apply negb_true_iff in Hc. rewrite Hc, (IH Hs). reflexivity.
Qed.

(** X18. The comment count on a task's card is the number in the heading
    of the task's thread: the card shows it exactly when the thread lists
    comments, and shows nothing when the thread says there are none. *)
Theorem comment_count_matches_thread
        (unicodeUpper : jsstring -> jsstring)
        (formatDateForDisplay : Date -> jsstring)
        (tasks : TaskList.State) (task : Task.t) (thread : TaskComments.State) :
  let view := TaskComments.render unicodeUpper formatDateForDisplay
                (TaskList.commentsProps tasks task) thread in
  match TaskListView.commentCountBadge task with
  | Element n =>
      n = TaskComments.heading_count view /\ (0 < n)%nat
      /\ exists cards, TaskComments.commentsList view = TaskComments.Cards cards
                       /\ List.length cards = n
  | Nothing =>
      TaskComments.heading_count view = 0%nat
      /\ TaskComments.commentsList view = TaskComments.NoCommentsYet
  | Text _ => False
  end.
Proof.
  cbv zeta. unfold TaskListView.commentCountBadge, TaskComments.render,
    TaskList.commentsProps. simpl.
  destruct (Task.comments task) as [[|c cs]|]; simpl.
  - split; reflexivity.
  - split; [reflexivity|]. split; [lia|].
    eexists. split; [reflexivity|]. simpl. rewrite length_map. reflexivity.
  - split; reflexivity.
Qed.

(** X19. When [getCurrentUser] answers, nothing is logged and the list is
    as before; the threads show the add form exactly when the answer is a
    user with a non-zero id, and show none when it is [null]. *)
Theorem fulfilled_getCurrentUser_shows_add_form
        (unicodeUpper : jsstring -> jsstring)
        (formatDateForDisplay : Date -> jsstring)
        (st : TaskList.State) (user : option User.t)
        (task : Task.t) (thread : TaskComments.State) :
  let st' := fst (TaskList.step st (TaskList.CurrentUserSettled (Fulfilled user))) in
  let view := TaskComments.render unicodeUpper formatDateForDisplay
                (TaskList.commentsProps st' task) thread in
  TaskList.console st' = TaskList.console st
  /\ TaskList.optimisticTasks st' = TaskList.optimisticTasks st
  /\ ((exists form, TaskComments.addForm view = Element form) <->
      (exists u, user = Some u /\ User.id u <> 0))
  /\ (user = None -> TaskComments.addForm view = Nothing).
Proof.
  cbv zeta. simpl. split; [reflexivity|]. split; [reflexivity|].
  unfold TaskComments.render. cbn [TaskComments.addForm]. split.
  - split.
    + intros (form & Hf). apply and_element_Element in Hf.
      destruct Hf as [T _]. destruct user as [u|]; [|discriminate].
      exists u. split; [reflexivity|]. simpl in T.
      apply negb_true_iff, Z.eqb_neq in T. exact T.
    + intros (u & -> & Hu). eexists. apply and_element_Element.
      split; [|reflexivity]. simpl. apply negb_true_iff, Z.eqb_neq, Hu.
  - intros ->. reflexivity.
Qed.

(** ** The open flags *)

Lemma step_other (o : TaskListView.Open) (e : TaskListView.Event) (j : Z) :
  TaskListView.subject e <> j ->
  TaskListView.openDialogs (TaskListView.step o e) j
  = TaskListView.openDialogs o j
  /\ TaskListView.openDropdowns (TaskListView.step o e) j
     = TaskListView.openDropdowns o j.
Proof.
  intros H. assert (E : (j =? TaskListView.subject e) = false)
    by (apply Z.eqb_neq; congruence).
  destruct e as [i|i|i b|i b]; simpl in *; unfold TaskListView.setFlag;
    rewrite ?E; split; reflexivity.
Qed.

Lemma run_others (es : list TaskListView.Event) (j : Z) :
  forallb (fun e => negb (TaskListView.subject e =? j)) es = true ->
  forall o : TaskListView.Open,
    TaskListView.openDialogs (TaskListView.run o es) j
    = TaskListView.openDialogs o j
    /\ TaskListView.openDropdowns (TaskListView.run o es) j
       = TaskListView.openDropdowns o j.
Proof.
  unfold TaskListView.run.
  induction es as [|e es IH]; simpl; intros H o; [split; reflexivity|].
  apply andb_true_iff in H. destruct H as [He Hes].
  apply negb_true_iff, Z.eqb_neq in He.
  destruct (IH Hes (TaskListView.step o e)) as [-> ->].
  apply step_other, He.
Qed.

Lemma run_agree (es : list TaskListView.Event) (j : Z) :
  forall o1 o2 : TaskListView.Open,
    TaskListView.openDialogs o1 j = TaskListView.openDialogs o2 j ->
    TaskListView.openDropdowns o1 j = TaskListView.openDropdowns o2 j ->
    TaskListView.openDialogs (TaskListView.run o1 es) j
    = TaskListView.openDialogs (TaskListView.run o2 es) j
    /\ TaskListView.openDropdowns (TaskListView.run o1 es) j
       = TaskListView.openDropdowns (TaskListView.run o2 es) j.
Proof.
  unfold TaskListView.run.
  induction es as [|e es IH]; simpl; intros o1 o2 D M; [split; assumption|].
  apply IH; destruct e as [i|i|i b|i b]; simpl; unfold TaskListView.setFlag;
    try destruct (j =? i); auto.
Qed.

(** X20. A task's dialog and menu are moved by that task's events only.
    After Edit is chosen for a task, its dialog is open and its menu
    closed, and they stay so through any events of other tasks; when the
    edit form then finishes the dialog is closed, the menu still is, and no
    other task's flags have moved. *)
Theorem open_flags_per_task
        (o : TaskListView.Open) (i : Z) (es : list TaskListView.Event)
        (H : forallb (fun e => negb (TaskListView.subject e =? i)) es = true) :
  let edited := TaskListView.run (TaskListView.handleEditClick i o) es in
  let finished := TaskListView.handleCloseDialog i edited in
  TaskListView.openDialogs edited i = Some true
  /\ TaskListView.openDropdowns edited i = Some false
  /\ TaskListView.openDialogs finished i = Some false
  /\ TaskListView.openDropdowns finished i = Some false
  /\ (forall j : Z, j <> i ->
        TaskListView.openDialogs finished j
        = TaskListView.openDialogs (TaskListView.run o es) j
        /\ TaskListView.openDropdowns finished j
           = TaskListView.openDropdowns (TaskListView.run o es) j).
Proof.
  cbv zeta.
  destruct (run_others es i H (TaskListView.handleEditClick i o)) as [D M].
  split; [|split; [|split; [|split]]].
  - rewrite D. simpl. unfold TaskListView.setFlag. rewrite Z.eqb_refl. reflexivity.
  - rewrite M. simpl. unfold TaskListView.setFlag. rewrite Z.eqb_refl. reflexivity.
  - simpl. unfold TaskListView.setFlag. rewrite Z.eqb_refl. reflexivity.
  - simpl. rewrite M. simpl. unfold TaskListView.setFlag.
    rewrite Z.eqb_refl. reflexivity.
  - intros j Hj. simpl. unfold TaskListView.setFlag at 1.
    apply Z.eqb_neq in Hj. rewrite Hj.
    apply run_agree; simpl; unfold TaskListView.setFlag; rewrite Hj; reflexivity.
Qed.

Lemma open_flags_per_task_witness :
  TaskListView.openDialogs
    (TaskListView.run (TaskListView.handleEditClick 1 TaskListView.closed)
       [TaskListView.EditSelected 2; TaskListView.DialogOpenChange 2 false])
    1
  = Some true.
Proof.
  apply (open_flags_per_task TaskListView.closed 1
           [TaskListView.EditSelected 2; TaskListView.DialogOpenChange 2 false]
           eq_refl).
Defined.
